(** * Reminder and calendar-event services: a shallow embedding

    The development follows [service/db/index.js] (the Prisma-backed
    service layer: [reminderService], [calendarEventService]) and
    [service/routes/reminders.js] (the Express routes in front of it).

    Instants are JavaScript time values: integer milliseconds since the
    epoch, in [Z]; an Invalid Date is [None].  Strings are sequences of
    code units below 256.  A database table is the list of its rows, in the
    engine's own (arbitrary) row order. *)

From Stdlib Require Import ZArith NArith List String Ascii Bool Lia.
From Stdlib Require Import Sorting.Sorted Sorting.Permutation.
Import ListNotations.

Local Open Scope string_scope.
Local Open Scope Z_scope.

(* ====================================================================== *)
(** ** The host: code units, regular expressions, [parseInt], [Date] *)
(* ====================================================================== *)

Module JS.

(** Code unit of a character. *)
Definition code (c : ascii) : Z := Z.of_N (N_of_ascii c).

Definition inRange (lo hi : Z) (c : ascii) : bool :=
  (lo <=? code c) && (code c <=? hi).

Definition isChar (k : Z) (c : ascii) : bool := code c =? k.

(** [\d] and [[0-9]]: the ten ASCII digits. *)
Definition isDigit : ascii -> bool := inRange 48 57.

(** *** Anchored regular expressions

    The two patterns of the service use character classes,
    concatenation, alternation, [?] and counted repetition, between [^]
    and [$] (no flags, so [$] is the end of the input).  [matchk] is the
    backtracking matcher: alternatives are tried left to right and the
    continuation [k] decides on the rest of the input. *)
Inductive regex : Type :=
| Eps : regex
| Cls : (ascii -> bool) -> regex
| Seq : regex -> regex -> regex
| Alt : regex -> regex -> regex.

Definition Opt (r : regex) : regex := Alt r Eps.

Fixpoint Rep (n : nat) (r : regex) : regex :=
  match n with
  | O => Eps
  | S n' => Seq r (Rep n' r)
  end.

Fixpoint matchk (r : regex) (s : string) (k : string -> bool) : bool :=
  match r with
  | Eps => k s
  | Cls p =>
      match s with
      | String c s' => p c && k s'
      | EmptyString => false
      end
  | Seq a b => matchk a s (fun s' => matchk b s' k)
  | Alt a b => matchk a s k || matchk b s k
  end.

Definition atEnd (s : string) : bool :=
  match s with
  | EmptyString => true
  | String _ _ => false
  end.

(** [/^r$/.test(s)] *)
Definition test (r : regex) (s : string) : bool := matchk r s atEnd.

(** *** [parseInt(string)] with no radix argument

    White space is skipped, a sign is read, a [0x]/[0X] prefix selects
    radix 16 (otherwise 10), and the longest prefix of digits is the
    value; no digit at all is [NaN] ([None]).  The value is kept exact;
    the host rounds it to a double, which keeps zero and non-zero
    apart. *)
Definition isWhite (c : ascii) : bool :=
  inRange 9 13 c || isChar 32 c || isChar 160 c.

Fixpoint trimStart (s : string) : string :=
  match s with
  | String c s' => if isWhite c then trimStart s' else s
  | EmptyString => s
  end.

Definition digitVal (R : Z) (c : ascii) : option Z :=
  let v :=
    if inRange 48 57 c then code c - 48
    else if inRange 97 122 c then code c - 87
    else if inRange 65 90 c then code c - 55
    else 36 in
  if v <? R then Some v else None.

Fixpoint digits (R : Z) (s : string) (acc : option Z) : option Z :=
  match s with
  | String c s' =>
      match digitVal R c with
      | Some d =>
          digits R s' (Some (R * match acc with Some a => a | None => 0 end + d))
      | None => acc
      end
  | EmptyString => acc
  end.

Definition readSign (s : string) : Z * string :=
  match s with
  | String c s' =>
      if isChar 45 c then (-1, s')
      else if isChar 43 c then (1, s')
      else (1, s)
  | EmptyString => (1, s)
  end.

Definition readRadix (s : string) : Z * string :=
  match s with
  | String c0 (String c1 s') =>
      if isChar 48 c0 && (isChar 120 c1 || isChar 88 c1) then (16, s')
      else (10, s)
  | _ => (10, s)
  end.

Definition parseInt (s : string) : option Z :=
  let (sign, s1) := readSign (trimStart s) in
  let (R, s2) := readRadix s1 in
  option_map (Z.mul sign) (digits R s2 None).

(** [x || d] on a number: [NaN] and zero are falsy. *)
Definition orElse (x : option Z) (d : Z) : Z :=
  match x with
  | Some n => if n =? 0 then d else n
  | None => d
  end.

(** Truthiness of a string: only the empty string is falsy. *)
Definition truthy (s : string) : bool := negb (atEnd s).

(** *** Time values and the [Date] constructor

    Day and time arithmetic as the language standard defines it; all
    divisions are floors. *)
Definition msPerDay : Z := 86400000.

Definition maxTime : Z := 8640000000000000.

Definition TimeClip (t : Z) : option Z :=
  if Z.abs t <=? maxTime then Some t else None.

Definition isLeap (y : Z) : bool :=
  (y mod 4 =? 0) && (negb (y mod 100 =? 0) || (y mod 400 =? 0)).

Definition DayFromYear (y : Z) : Z :=
  365 * (y - 1970) + (y - 1969) / 4 - (y - 1901) / 100 + (y - 1601) / 400.

(** Months are counted from 1 here, as they are written in a date string. *)
Definition daysInMonth (y m : Z) : Z :=
  if m =? 2 then (if isLeap y then 29 else 28)
  else if (m =? 4) || (m =? 6) || (m =? 9) || (m =? 11) then 30
  else 31.

Fixpoint daysBefore (y : Z) (m : nat) : Z :=
  match m with
  | O => 0
  | S m' => daysBefore y m' + daysInMonth y (Z.of_nat m)
  end.

Definition MakeDay (y m d : Z) : Z :=
  DayFromYear y + daysBefore y (Z.to_nat (m - 1)) + d - 1.

Definition MakeTime (hh mm ss ms : Z) : Z :=
  hh * 3600000 + mm * 60000 + ss * 1000 + ms.

Definition MakeDate (day time : Z) : Z := day * msPerDay + time.

(** The decimal number written at positions [i .. i+n-1] of [s]. *)
Definition numAt (s : string) (i n : nat) : Z :=
  match digits 10 (substring i n s) None with
  | Some v => v
  | None => 0
  end.

Definition dash : regex := Cls (isChar 45).
Definition colon : regex := Cls (isChar 58).
Definition d2 : regex := Rep 2 (Cls isDigit).

(** [YYYY-MM-DD] *)
Definition isoDate : regex :=
  Seq (Rep 4 (Cls isDigit)) (Seq dash (Seq d2 (Seq dash d2))).

(** [YYYY-MM-DDTHH:mm:ss.sssZ], the form [toISOString] and JSON produce. *)
Definition isoStamp : regex :=
  Seq isoDate
    (Seq (Cls (isChar 84))
       (Seq d2 (Seq colon (Seq d2 (Seq colon (Seq d2
          (Seq (Cls (isChar 46)) (Seq (Rep 3 (Cls isDigit)) (Cls (isChar 90)))))))))).

Definition civil (y m d : Z) : option Z :=
  if (1 <=? m) && (m <=? 12) && (1 <=? d) && (d <=? daysInMonth y m)
  then Some (MakeDay y m d)
  else None.

Definition clock (hh mm ss ms : Z) : option Z :=
  if (hh <=? 23) && (mm <=? 59) && (ss <=? 59)
  then Some (MakeTime hh mm ss ms)
  else None.

(** The two standard date-time string forms the clients of this service
    send, both read as UTC.  A string of neither form, or with a field out
    of range, is not decided here. *)
Definition isoParse (s : string) : option Z :=
  if test isoDate s then
    option_map (fun day => MakeDate day 0)
      (civil (numAt s 0 4) (numAt s 5 2) (numAt s 8 2))
  else if test isoStamp s then
    match civil (numAt s 0 4) (numAt s 5 2) (numAt s 8 2),
          clock (numAt s 11 2) (numAt s 14 2) (numAt s 17 2) (numAt s 20 3) with
    | Some day, Some time => Some (MakeDate day time)
    | _, _ => None
    end
  else None.

(** What the engine leaves to the implementation: the parser for strings
    outside the standard forms ([legacyParse], [None] for Invalid Date) and
    the local time zone adjustment ([LocalTZA t isUTC], in milliseconds). *)
Record Host : Type := {
  legacyParse : string -> option Z;
  LocalTZA : Z -> bool -> Z
}.

(** [new Date(s)] for a string [s]. *)
Definition newDate (h : Host) (s : string) : option Z :=
  match isoParse s with
  | Some t => TimeClip t
  | None => legacyParse h s
  end.

Definition LocalTime (h : Host) (t : Z) : Z := t + LocalTZA h t true.

Definition UTC (h : Host) (t : Z) : Z := t - LocalTZA h t false.

(** [d.setDate(d.getDate() + days)] on a valid date [d] of time value [t]:
    the local day number moves by [days], the time within the day stays. *)
Definition addDays (h : Host) (t days : Z) : option Z :=
  TimeClip (UTC h (LocalTime h t + days * msPerDay)).

(** A host in the UTC zone whose parser accepts the standard forms only. *)
Definition utcHost : Host :=
  {| legacyParse := fun _ => None; LocalTZA := fun _ _ => 0 |}.

End JS.

(* ====================================================================== *)
(** ** Results of fallible calls *)
(* ====================================================================== *)

(** A rejected promise or a thrown exception. *)
Inductive Error : Type :=
| P2025 : Error                     (* Prisma: the record to update or delete does not exist *)
| P2003 : Error                     (* Prisma: a foreign key names no record *)
| PrismaValidation : Error          (* Prisma: an argument is refused, e.g. an Invalid Date *)
| Thrown : string -> Error.         (* [throw new Error(msg)] in the service *)

Inductive Result (A : Type) : Type :=
| Ok : A -> Result A
| Err : Error -> Result A.

Arguments Ok {A} _.
Arguments Err {A} _.

Definition isOk {A : Type} (r : Result A) : bool :=
  match r with
  | Ok _ => true
  | Err _ => false
  end.

(** A call on a table: its result and the table afterwards. *)
Definition Call (T A : Type) : Type := Result A * list T.

(* ====================================================================== *)
(** ** The Prisma client on one table *)
(* ====================================================================== *)

Module Prisma.

Section Table.

Variable T : Type.
Variable key : T -> string.

(** [findUnique({ where: { id } })] *)
Fixpoint findUnique (rows : list T) (i : string) : option T :=
  match rows with
  | [] => None
  | r :: rest => if String.eqb (key r) i then Some r else findUnique rest i
  end.

Fixpoint replaceRow (rows : list T) (i : string) (r' : T) : list T :=
  match rows with
  | [] => []
  | r :: rest =>
      if String.eqb (key r) i then r' :: rest else r :: replaceRow rest i r'
  end.

Fixpoint removeRow (rows : list T) (i : string) : list T :=
  match rows with
  | [] => []
  | r :: rest => if String.eqb (key r) i then rest else r :: removeRow rest i
  end.

(** [update({ where: { id }, data })]: [data] is the change of the row.
    A missing row rejects with P2025 and writes nothing. *)
Definition update (rows : list T) (i : string) (data : T -> T) : Call T T :=
  match findUnique rows i with
  | Some r => (Ok (data r), replaceRow rows i (data r))
  | None => (Err P2025, rows)
  end.

(** [delete({ where: { id } })]: a missing row rejects with P2025. *)
Definition delete (rows : list T) (i : string) : Call T T :=
  match findUnique rows i with
  | Some r => (Ok r, removeRow rows i)
  | None => (Err P2025, rows)
  end.

(** [create({ data })]: the row, with its generated id, joins the table. *)
Definition create (rows : list T) (r : T) : Call T T :=
  (Ok r, (rows ++ [r])%list).

(** [orderBy: { k: 'asc' }]: rows with equal [k] keep the order in which
    the engine produced them. *)
Fixpoint insertBy (k : T -> Z) (x : T) (l : list T) : list T :=
  match l with
  | [] => [x]
  | y :: l' => if k x <=? k y then x :: l else y :: insertBy k x l'
  end.

Definition orderByAsc (k : T -> Z) (l : list T) : list T :=
  fold_right (insertBy k) [] l.

(** [findMany({ where, orderBy: { k: 'asc' } })] *)
Definition findMany (rows : list T) (where_ : T -> bool) (k : T -> Z) : list T :=
  orderByAsc k (filter where_ rows).

(** [upsert({ where: { id }, update, create })]: the row is changed when
    it exists, and [fresh] joins the table when it does not. *)
Definition upsert (rows : list T) (i : string) (fresh : T) (data : T -> T) : Call T T :=
  match findUnique rows i with
  | Some r => (Ok (data r), replaceRow rows i (data r))
  | None => (Ok fresh, (rows ++ [fresh])%list)
  end.

(** [orderBy: { k: 'desc' }] *)
Definition orderByDesc (k : T -> Z) (l : list T) : list T :=
  orderByAsc (fun r => - k r) l.

(** [take: n], for [n] in the 32-bit range the client accepts: the first
    [n] rows of the ordered result, or its last [-n] rows when [n] is
    negative. *)
Definition take (n : Z) (l : list T) : list T :=
  if 0 <=? n then firstn (Z.to_nat n) l
  else skipn (List.length l - Z.to_nat (- n))%nat l.

End Table.

Arguments findUnique {T} key rows i.
Arguments replaceRow {T} key rows i r'.
Arguments removeRow {T} key rows i.
Arguments update {T} key rows i data.
Arguments delete {T} key rows i.
Arguments create {T} rows r.
Arguments insertBy {T} k x l.
Arguments orderByAsc {T} k l.
Arguments upsert {T} key rows i fresh data.
Arguments orderByDesc {T} k l.
Arguments take {T} n l.
Arguments findMany {T} rows where_ k.

End Prisma.

(* ====================================================================== *)
(** ** Users *)
(* ====================================================================== *)

Module User.

Record t : Type := {
  id : string;
  email : string;
  name : option string;
  passwordHash : option string
}.

End User.

(** Reminders, calendar events and messages each belong to a user: a row
    whose [userId] names no stored user is refused by the database. *)
Definition userExists (users : list User.t) (userId : string) : bool :=
  match Prisma.findUnique User.id users userId with
  | Some _ => true
  | None => false
  end.

(* ====================================================================== *)
(** ** Reminders *)
(* ====================================================================== *)

(** A row of the reminder table: the columns the service reads or writes.
    [repeatUntil] is nullable. *)
Module Reminder.

Record t : Type := {
  id : string;
  userId : string;
  title : string;
  dueDate : Z;
  repeatType : string;
  repeatUntil : option Z;
  interval : Z;
  completed : bool
}.

(** Modelled from the spec: the schema file with the column defaults is not
    among the sources; the rule kind defaults to [none] and the interval
    to 1. *)
Definition defaultRepeatType : string := "none".

Definition defaultInterval : Z := 1.

End Reminder.

(** The [data] argument of an update: an undefined field is [None] and is
    left alone by the client. *)
Record ReminderData : Type := {
  d_title : option string;
  d_dueDate : option Z;
  d_repeatType : option string;
  d_repeatUntil : option Z;
  d_interval : option Z;
  d_completed : option bool
}.

Definition setField {A : Type} (new : option A) (old : A) : A :=
  match new with
  | Some v => v
  | None => old
  end.

Definition applyData (d : ReminderData) (r : Reminder.t) : Reminder.t :=
  {| Reminder.id := Reminder.id r;
     Reminder.userId := Reminder.userId r;
     Reminder.title := setField (d_title d) (Reminder.title r);
     Reminder.dueDate := setField (d_dueDate d) (Reminder.dueDate r);
     Reminder.repeatType := setField (d_repeatType d) (Reminder.repeatType r);
     Reminder.repeatUntil :=
       match d_repeatUntil d with
       | Some u => Some u
       | None => Reminder.repeatUntil r
       end;
     Reminder.interval := setField (d_interval d) (Reminder.interval r);
     Reminder.completed := setField (d_completed d) (Reminder.completed r) |}.

(** The fields a request carries for a reminder; an absent (undefined)
    field is [None]. *)
Record ReminderInput : Type := {
  in_title : option string;
  in_dueDate : option string;
  in_repeatType : option string;
  in_repeatUntil : option string;
  in_interval : option Z
}.

(** A date argument handed to the client. *)
Inductive DateArg : Type :=
| Undefined : DateArg
| Null : DateArg
| DateObj : option Z -> DateArg.    (* a Date object, [None] when invalid *)

Definition invalidArg (a : DateArg) : bool :=
  match a with
  | DateObj None => true
  | _ => false
  end.

Definition dateValue (a : DateArg) : option Z :=
  match a with
  | DateObj (Some t) => Some t
  | _ => None
  end.

(** [x ? new Date(x) : other] *)
Definition dateOr (h : JS.Host) (x : option string) (other : DateArg) : DateArg :=
  match x with
  | Some s => if JS.truthy s then DateObj (JS.newDate h s) else other
  | None => other
  end.

Module reminderService.

Definition table : Type := list Reminder.t.

(** [create(reminderData)]; [newId] is the id the database generates.
    A required column left undefined is refused by the client, and so is
    an Invalid Date; a [userId] that names no user is refused by the
    database. *)
Definition create (h : JS.Host) (users : list User.t) (rows : table) (newId : string)
    (userId : option string) (x : ReminderInput) : Call Reminder.t Reminder.t :=
  let due :=
    match in_dueDate x with
    | Some s => DateObj (JS.newDate h s)
    | None => DateObj None
    end in
  let until := dateOr h (in_repeatUntil x) Null in
  match userId, in_title x, due with
  | Some u, Some ttl, DateObj (Some t) =>
      if invalidArg until then (Err PrismaValidation, rows)
      else if negb (userExists users u) then (Err P2003, rows)
      else
        Prisma.create rows
          {| Reminder.id := newId;
             Reminder.userId := u;
             Reminder.title := ttl;
             Reminder.dueDate := t;
             Reminder.repeatType := setField (in_repeatType x) Reminder.defaultRepeatType;
             Reminder.repeatUntil := dateValue until;
             Reminder.interval := setField (in_interval x) Reminder.defaultInterval;
             Reminder.completed := false |}
  | _, _, _ => (Err PrismaValidation, rows)
  end.

(** The horizon end: [endDate = new Date(); endDate.setDate(endDate.getDate() + days)],
    with the clock reading [now]. *)
Definition endDate (h : JS.Host) (now days : Z) : option Z := JS.addDays h now days.

(** [getUpcoming(userId, days)] at clock reading [now]. *)
Definition getUpcoming (h : JS.Host) (rows : table) (userId : string) (days now : Z)
  : Result (list Reminder.t) :=
  match endDate h now days with
  | Some e =>
      Ok (Prisma.findMany rows
            (fun r => String.eqb (Reminder.userId r) userId
                      && negb (Reminder.completed r)
                      && (Reminder.dueDate r <=? e))
            Reminder.dueDate)
  | None => Err PrismaValidation
  end.

Definition completedData : ReminderData :=
  {| d_title := None; d_dueDate := None; d_repeatType := None;
     d_repeatUntil := None; d_interval := None; d_completed := Some true |}.

(** [markCompleted(reminderId)] *)
Definition markCompleted (rows : table) (reminderId : string) : Call Reminder.t Reminder.t :=
  Prisma.update Reminder.id rows reminderId (applyData completedData).

(** [update(reminderId, reminderData)] *)
Definition update (h : JS.Host) (rows : table) (reminderId : string) (x : ReminderInput)
  : Call Reminder.t Reminder.t :=
  let due := dateOr h (in_dueDate x) Undefined in
  let until := dateOr h (in_repeatUntil x) Undefined in
  if invalidArg due || invalidArg until then (Err PrismaValidation, rows)
  else
    Prisma.update Reminder.id rows reminderId
      (applyData
         {| d_title := in_title x;
            d_dueDate := dateValue due;
            d_repeatType := in_repeatType x;
            d_repeatUntil := dateValue until;
            d_interval := in_interval x;
            d_completed := None |}).

(** [delete(reminderId)] *)
Definition delete (rows : table) (reminderId : string) : Call Reminder.t Reminder.t :=
  Prisma.delete Reminder.id rows reminderId.

(** [getByUser(userId, includeCompleted)] *)
Definition getByUser (rows : table) (userId : string) (includeCompleted : bool)
  : list Reminder.t :=
  Prisma.findMany rows
    (fun r => String.eqb (Reminder.userId r) userId
              && (if includeCompleted then true else negb (Reminder.completed r)))
    Reminder.dueDate.

End reminderService.

(* ====================================================================== *)
(** ** The reminder routes *)
(* ====================================================================== *)

Inductive Payload : Type :=
| NoData : Payload
| One : Reminder.t -> Payload
| Many : list Reminder.t -> Payload.

(** The HTTP answer: status code and the fields of the JSON body. *)
Record Response : Type := {
  status : Z;
  success : option bool;
  data : Payload;
  error : option string;
  message : option string
}.

Definition failure (code : Z) (flag : option bool) (msg : string) : Response :=
  {| status := code; success := flag; data := NoData;
     error := Some msg; message := None |}.

Definition answer (code : Z) (d : Payload) : Response :=
  {| status := code; success := Some true; data := d;
     error := None; message := None |}.

(** [!x] is false for a present, non-empty string only. *)
Definition present (x : option string) : bool :=
  match x with
  | Some s => JS.truthy s
  | None => false
  end.

Module router.

(** [parseInt(req.query.days) || 7]; a missing parameter is [undefined],
    which [parseInt] reads as the text of that word. *)
Definition daysOf (q : option string) : Z :=
  JS.orElse (JS.parseInt (match q with Some s => s | None => "undefined" end)) 7.

(** GET /upcoming/:userId *)
Definition get_upcoming (h : JS.Host) (rows : reminderService.table)
    (userId : string) (days : option string) (now : Z) : Response :=
  match reminderService.getUpcoming h rows userId (daysOf days) now with
  | Ok l => answer 200 (Many l)
  | Err _ => failure 500 (Some false) "Failed to fetch upcoming reminders"
  end.

(** POST / *)
Definition post (h : JS.Host) (users : list User.t) (rows : reminderService.table)
    (newId : string) (userId : option string) (body : ReminderInput)
  : Response * reminderService.table :=
  if negb (present userId) || negb (present (in_title body))
     || negb (present (in_dueDate body))
  then (failure 400 (Some false) "userId, title, and dueDate are required", rows)
  else
    match reminderService.create h users rows newId userId body with
    | (Ok r, rows') => (answer 201 (One r), rows')
    | (Err _, rows') => (failure 500 None "Failed to create reminder", rows')
    end.

(** PATCH /:id/complete *)
Definition patch_complete (rows : reminderService.table) (id : string)
  : Response * reminderService.table :=
  match reminderService.markCompleted rows id with
  | (Ok r, rows') => (answer 200 (One r), rows')
  | (Err _, rows') => (failure 500 None "Failed to complete reminder", rows')
  end.

(** PUT /:id *)
Definition put (h : JS.Host) (rows : reminderService.table) (id : string)
    (body : ReminderInput) : Response * reminderService.table :=
  match reminderService.update h rows id body with
  | (Ok r, rows') => (answer 200 (One r), rows')
  | (Err _, rows') => (failure 500 None "Failed to update reminder", rows')
  end.

(** DELETE /:id *)
Definition delete (rows : reminderService.table) (id : string)
  : Response * reminderService.table :=
  match reminderService.delete rows id with
  | (Ok _, rows') =>
      ({| status := 200; success := Some true; data := NoData; error := None;
          message := Some "Reminder deleted successfully" |}, rows')
  | (Err _, rows') => (failure 500 None "Failed to delete reminder", rows')
  end.

(** GET /user/:userId, with [req.query.includeCompleted === 'true'] *)
Definition get_user (rows : reminderService.table) (userId : string)
    (includeCompleted : option string) : Response :=
  answer 200
    (Many (reminderService.getByUser rows userId
             (match includeCompleted with
              | Some s => String.eqb s "true"
              | None => false
              end))).

End router.

(* ====================================================================== *)
(** ** Calendar events *)
(* ====================================================================== *)

Module CalendarEvent.

Record t : Type := {
  id : string;
  userId : string;
  title : string;
  type : string;
  date : option Z;
  time : option string;
  description : option string;
  recurring : option string;
  recurringDays : option string;
  recurringEndDate : option Z;
  completed : bool
}.

End CalendarEvent.

(** The fields a caller passes for a calendar event; [None] is undefined. *)
Record EventInput : Type := {
  ev_userId : string;
  ev_title : option string;
  ev_type : option string;
  ev_date : option string;
  ev_time : option string;
  ev_description : option string;
  ev_completed : option bool;
  ev_recurring : option string;
  ev_recurringDays : option string;
  ev_recurringEndDate : option string
}.

Module calendarEventService.

Definition table : Type := list CalendarEvent.t.

(** [/^\d{4}-\d{2}-\d{2}$/] *)
Definition dateRegex : JS.regex :=
  JS.Seq (JS.Rep 4 (JS.Cls JS.isDigit))
    (JS.Seq (JS.Cls (JS.isChar 45))
       (JS.Seq (JS.Rep 2 (JS.Cls JS.isDigit))
          (JS.Seq (JS.Cls (JS.isChar 45)) (JS.Rep 2 (JS.Cls JS.isDigit))))).

(** [/^([0-1]?[0-9]|2[0-3]):[0-5][0-9]$/] *)
Definition timeRegex : JS.regex :=
  JS.Seq
    (JS.Alt (JS.Seq (JS.Opt (JS.Cls (JS.inRange 48 49))) (JS.Cls (JS.inRange 48 57)))
            (JS.Seq (JS.Cls (JS.isChar 50)) (JS.Cls (JS.inRange 48 51))))
    (JS.Seq (JS.Cls (JS.isChar 58))
       (JS.Seq (JS.Cls (JS.inRange 48 53)) (JS.Cls (JS.inRange 48 57)))).

(** [_validateDate(date)]: [Ok None] is the [null] returned for a falsy
    argument. *)
Definition _validateDate (h : JS.Host) (date : string) : Result (option Z) :=
  if negb (JS.truthy date) then Ok None
  else if negb (JS.test dateRegex date)
  then Err (Thrown "Invalid date format. Use YYYY-MM-DD")
  else
    match JS.newDate h date with
    | None => Err (Thrown "Invalid date value")
    | Some t => Ok (Some t)
    end.

(** [_validateTime(time)] *)
Definition _validateTime (time : string) : Result (option string) :=
  if negb (JS.truthy time) then Ok None
  else if negb (JS.test timeRegex time)
  then Err (Thrown "Invalid time format. Use HH:mm (24-hour format)")
  else Ok (Some time).

(** [x ? validate(x) : null] *)
Definition validated {A : Type} (validate : string -> Result (option A))
    (x : option string) : Result (option A) :=
  match x with
  | Some s => if JS.truthy s then validate s else Ok None
  | None => Ok None
  end.

(** [create(eventData)]; [newId] is the id the database generates. *)
Definition create (h : JS.Host) (users : list User.t) (rows : table) (newId : string)
    (e : EventInput) : Call CalendarEvent.t CalendarEvent.t :=
  match validated (_validateDate h) (ev_date e) with
  | Err err => (Err err, rows)
  | Ok date =>
      match validated _validateTime (ev_time e) with
      | Err err => (Err err, rows)
      | Ok time =>
          match date, ev_title e with
          | None, _ => (Err (Thrown "Event date is required (YYYY-MM-DD format)"), rows)
          | Some _, None => (Err PrismaValidation, rows)
          | Some _, Some ttl =>
              let until := dateOr h (ev_recurringEndDate e) Null in
              if invalidArg until then (Err PrismaValidation, rows)
              else if negb (userExists users (ev_userId e)) then (Err P2003, rows)
              else
                Prisma.create rows
                  {| CalendarEvent.id := newId;
                     CalendarEvent.userId := ev_userId e;
                     CalendarEvent.title := ttl;
                     CalendarEvent.type :=
                       match ev_type e with
                       | Some s => if JS.truthy s then s else "event"
                       | None => "event"
                       end;
                     CalendarEvent.date := date;
                     CalendarEvent.time := time;
                     CalendarEvent.description := ev_description e;
                     CalendarEvent.recurring :=
                       if present (ev_recurring e) then ev_recurring e else None;
                     CalendarEvent.recurringDays :=
                       if present (ev_recurringDays e) then ev_recurringDays e else None;
                     CalendarEvent.recurringEndDate := dateValue until;
                     CalendarEvent.completed := false |}
          end
      end
  end.

(** The [updateData] object: an inner [None] is a field set to [null]. *)
Record EventData : Type := {
  u_title : option string;
  u_type : option string;
  u_description : option string;
  u_completed : option bool;
  u_date : option (option Z);
  u_time : option (option string)
}.

Definition noFields (d : EventData) : bool :=
  match u_title d, u_type d, u_description d, u_completed d, u_date d, u_time d with
  | None, None, None, None, None, None => true
  | _, _, _, _, _, _ => false
  end.

Definition applyEventData (d : EventData) (r : CalendarEvent.t) : CalendarEvent.t :=
  {| CalendarEvent.id := CalendarEvent.id r;
     CalendarEvent.userId := CalendarEvent.userId r;
     CalendarEvent.title := setField (u_title d) (CalendarEvent.title r);
     CalendarEvent.type := setField (u_type d) (CalendarEvent.type r);
     CalendarEvent.date := setField (u_date d) (CalendarEvent.date r);
     CalendarEvent.time := setField (u_time d) (CalendarEvent.time r);
     CalendarEvent.description :=
       match u_description d with
       | Some s => Some s
       | None => CalendarEvent.description r
       end;
     CalendarEvent.recurring := CalendarEvent.recurring r;
     CalendarEvent.recurringDays := CalendarEvent.recurringDays r;
     CalendarEvent.recurringEndDate := CalendarEvent.recurringEndDate r;
     CalendarEvent.completed := setField (u_completed d) (CalendarEvent.completed r) |}.

(** [field !== undefined ? (field ? validate(field) : null) : skipped] *)
Definition checked {A : Type} (validate : string -> Result (option A))
    (x : option string) : Result (option (option A)) :=
  match x with
  | None => Ok None
  | Some s =>
      match validated validate (Some s) with
      | Ok v => Ok (Some v)
      | Err err => Err err
      end
  end.

(** [update(eventId, eventData)] *)
Definition update (h : JS.Host) (rows : table) (eventId : string) (e : EventInput)
  : Call CalendarEvent.t CalendarEvent.t :=
  match checked (_validateDate h) (ev_date e) with
  | Err err => (Err err, rows)
  | Ok date =>
      match checked _validateTime (ev_time e) with
      | Err err => (Err err, rows)
      | Ok time =>
          let d := {| u_title := ev_title e; u_type := ev_type e;
                      u_description := ev_description e;
                      u_completed := ev_completed e;
                      u_date := date; u_time := time |} in
          if noFields d then (Err (Thrown "No valid fields to update"), rows)
          else Prisma.update CalendarEvent.id rows eventId (applyEventData d)
      end
  end.

(** [getById(eventId)] *)
Definition getById (rows : table) (eventId : string) : option CalendarEvent.t :=
  Prisma.findUnique CalendarEvent.id rows eventId.

(** [delete(eventId)] *)
Definition delete (rows : table) (eventId : string) : Call CalendarEvent.t CalendarEvent.t :=
  Prisma.delete CalendarEvent.id rows eventId.

End calendarEventService.

(* ====================================================================== *)
(** ** JSON values and answers of the other routes *)
(* ====================================================================== *)

(** A JSON value of a request body; numbers are the integer ones. *)
#[warnings="-register-all"]
Inductive Json : Type :=
| JNull : Json
| JBool : bool -> Json
| JNum : Z -> Json
| JStr : string -> Json
| JArr : list Json -> Json
| JObj : list (string * Json) -> Json.

Definition truthyJson (j : Json) : bool :=
  match j with
  | JNull => false
  | JBool b => b
  | JNum n => negb (n =? 0)
  | JStr s => JS.truthy s
  | JArr _ => true
  | JObj _ => true
  end.

(** [Object.keys(j).length] (the keys of an object are distinct). *)
Definition keyCount (j : Json) : nat :=
  match j with
  | JArr l => List.length l
  | JObj l => List.length l
  | JStr s => String.length s
  | _ => O
  end.

(** [x || null] on an optional JSON value. *)
Definition orNull (x : option Json) : option Json :=
  match x with
  | Some j => if truthyJson j then Some j else None
  | None => None
  end.

(** [hay.includes(needle)] *)
Fixpoint includes (needle hay : string) : bool :=
  String.prefix needle hay
  || match hay with
     | String _ rest => includes needle rest
     | EmptyString => false
     end.

(** The answer of a route that carries data of type [A]. *)
Record Reply (A : Type) : Type := {
  r_status : Z;
  r_success : option bool;
  r_data : option A;
  r_error : option string;
  r_message : option string
}.

Arguments r_status {A} _.
Arguments r_success {A} _.
Arguments r_data {A} _.
Arguments r_error {A} _.
Arguments r_message {A} _.

Definition replyData {A : Type} (code : Z) (d : A) : Reply A :=
  {| r_status := code; r_success := Some true; r_data := Some d;
     r_error := None; r_message := None |}.

Definition replyError {A : Type} (code : Z) (flag : option bool) (msg : string) : Reply A :=
  {| r_status := code; r_success := flag; r_data := None;
     r_error := Some msg; r_message := None |}.

Definition replyMessage {A : Type} (msg : string) : Reply A :=
  {| r_status := 200; r_success := Some true; r_data := None;
     r_error := None; r_message := Some msg |}.

(* ====================================================================== *)
(** ** Messages *)
(* ====================================================================== *)

Module Message.

Record t : Type := {
  id : string;
  text : string;
  userId : string;
  role : string;
  createdAt : Z
}.

End Message.

Record MessageInput : Type := {
  msg_text : option string;
  msg_userId : option string;
  msg_role : option string
}.

Module messageService.

Definition table : Type := list Message.t.

(** [create(messageData)]; [newId] and [createdAt] are the values the
    database gives the two columns the call leaves out. *)
Definition create (users : list User.t) (rows : table) (newId : string)
    (createdAt : Z) (m : MessageInput) : Call Message.t Message.t :=
  match msg_text m, msg_userId m with
  | Some txt, Some u =>
      if negb (userExists users u) then (Err P2003, rows)
      else
      Prisma.create rows
        {| Message.id := newId;
           Message.text := txt;
           Message.userId := u;
           Message.role :=
             match msg_role m with
             | Some r => if JS.truthy r then r else "user"
             | None => "user"
             end;
           Message.createdAt := createdAt |}
  | _, _ => (Err PrismaValidation, rows)
  end.

(** [getByUser(userId, limit)] *)
Definition getByUser (rows : table) (userId : string) (limit : Z) : list Message.t :=
  Prisma.take limit
    (Prisma.orderByAsc Message.createdAt
       (filter (fun m => String.eqb (Message.userId m) userId) rows)).

(** [getConversation(userId, limit)] *)
Definition getConversation (rows : table) (userId : string) (limit : Z) : list Message.t :=
  Prisma.take limit
    (Prisma.orderByDesc Message.createdAt
       (filter (fun m => String.eqb (Message.userId m) userId) rows)).

(** [delete(messageId)] *)
Definition delete (rows : table) (messageId : string) : Call Message.t Message.t :=
  Prisma.delete Message.id rows messageId.

End messageService.

Module messageRouter.

(** POST /: only [text] and [userId] of the body reach the service. *)
Definition post (users : list User.t) (rows : messageService.table) (newId : string)
    (createdAt : Z) (body : MessageInput) : Reply Message.t * messageService.table :=
  if negb (present (msg_text body)) || negb (present (msg_userId body))
  then (replyError 400 (Some false) "Text and userId are required", rows)
  else
    match messageService.create users rows newId createdAt
            {| msg_text := msg_text body; msg_userId := msg_userId body;
               msg_role := None |} with
    | (Ok m, rows') => (replyData 201 m, rows')
    | (Err _, rows') => (replyError 500 (Some false) "Failed to create message", rows')
    end.

(** DELETE /:id *)
Definition delete (rows : messageService.table) (id : string)
  : Reply Message.t * messageService.table :=
  match messageService.delete rows id with
  | (Ok _, rows') => (replyMessage "Message deleted successfully", rows')
  | (Err _, rows') => (replyError 500 None "Failed to delete message", rows')
  end.

End messageRouter.

(* ====================================================================== *)
(** ** Users and the AI memory *)
(* ====================================================================== *)

(** One row per user, keyed by [userId].  [lastSync = None] stands for
    the value the column has when the service does not write it. *)
Module AIMemory.

Record t : Type := {
  userId : string;
  summary : option string;
  goals : option Json;
  preferences : option Json;
  extractionConfidence : option Json;
  extractionWarnings : option Json;
  extractedAt : option Json;
  lastSync : option Z
}.

End AIMemory.

(** The [memoryData] argument; [None] is an undefined field. *)
Record MemoryData : Type := {
  m_summary : option string;
  m_goals : option Json;
  m_preferences : option Json;
  m_extractionConfidence : option Json;
  m_extractionWarnings : option Json;
  m_extractedAt : option Json
}.

(** An optional column under an update: an undefined field is skipped. *)
Definition setOpt {A : Type} (new old : option A) : option A :=
  match new with
  | Some v => Some v
  | None => old
  end.

Module aiMemoryService.

Definition table : Type := list AIMemory.t.

Definition userNotFound (userId : string) : Error :=
  Thrown ("User with ID " ++ userId ++ " not found").

(** [upsert(userId, memoryData)] at clock reading [now]. *)
Definition upsert (users : list User.t) (rows : table) (now : Z)
    (userId : string) (m : MemoryData) : Call AIMemory.t AIMemory.t :=
  match Prisma.findUnique User.id users userId with
  | None => (Err (userNotFound userId), rows)
  | Some _ =>
      let extractionConfidence := orNull (m_extractionConfidence m) in
      let extractionWarnings := orNull (m_extractionWarnings m) in
      let extractedAt := orNull (m_extractedAt m) in
      Prisma.upsert AIMemory.userId rows userId
        {| AIMemory.userId := userId;
           AIMemory.summary := m_summary m;
           AIMemory.goals := m_goals m;
           AIMemory.preferences := m_preferences m;
           AIMemory.extractionConfidence := extractionConfidence;
           AIMemory.extractionWarnings := extractionWarnings;
           AIMemory.extractedAt := extractedAt;
           AIMemory.lastSync := None |}
        (fun r =>
           {| AIMemory.userId := AIMemory.userId r;
              AIMemory.summary := setOpt (m_summary m) (AIMemory.summary r);
              AIMemory.goals := setOpt (m_goals m) (AIMemory.goals r);
              AIMemory.preferences := setOpt (m_preferences m) (AIMemory.preferences r);
              AIMemory.extractionConfidence := extractionConfidence;
              AIMemory.extractionWarnings := extractionWarnings;
              AIMemory.extractedAt := extractedAt;
              AIMemory.lastSync := Some now |})
  end.

(** [getByUser(userId)] *)
Definition getByUser (rows : table) (userId : string) : option AIMemory.t :=
  Prisma.findUnique AIMemory.userId rows userId.

(** [updateGoals(userId, goals)] *)
Definition updateGoals (users : list User.t) (rows : table) (now : Z)
    (userId : string) (goals : Json) : Call AIMemory.t AIMemory.t :=
  match Prisma.findUnique User.id users userId with
  | None => (Err (userNotFound userId), rows)
  | Some _ =>
      Prisma.upsert AIMemory.userId rows userId
        {| AIMemory.userId := userId;
           AIMemory.summary := None;
           AIMemory.goals := Some goals;
           AIMemory.preferences := None;
           AIMemory.extractionConfidence := None;
           AIMemory.extractionWarnings := None;
           AIMemory.extractedAt := None;
           AIMemory.lastSync := None |}
        (fun r =>
           {| AIMemory.userId := AIMemory.userId r;
              AIMemory.summary := AIMemory.summary r;
              AIMemory.goals := Some goals;
              AIMemory.preferences := AIMemory.preferences r;
              AIMemory.extractionConfidence := AIMemory.extractionConfidence r;
              AIMemory.extractionWarnings := AIMemory.extractionWarnings r;
              AIMemory.extractedAt := AIMemory.extractedAt r;
              AIMemory.lastSync := Some now |})
  end.

(** [updatePreferences(userId, preferences)] *)
Definition updatePreferences (users : list User.t) (rows : table) (now : Z)
    (userId : string) (preferences : Json) : Call AIMemory.t AIMemory.t :=
  match Prisma.findUnique User.id users userId with
  | None => (Err (userNotFound userId), rows)
  | Some _ =>
      Prisma.upsert AIMemory.userId rows userId
        {| AIMemory.userId := userId;
           AIMemory.summary := None;
           AIMemory.goals := None;
           AIMemory.preferences := Some preferences;
           AIMemory.extractionConfidence := None;
           AIMemory.extractionWarnings := None;
           AIMemory.extractedAt := None;
           AIMemory.lastSync := None |}
        (fun r =>
           {| AIMemory.userId := AIMemory.userId r;
              AIMemory.summary := AIMemory.summary r;
              AIMemory.goals := AIMemory.goals r;
              AIMemory.preferences := Some preferences;
              AIMemory.extractionConfidence := AIMemory.extractionConfidence r;
              AIMemory.extractionWarnings := AIMemory.extractionWarnings r;
              AIMemory.extractedAt := AIMemory.extractedAt r;
              AIMemory.lastSync := Some now |})
  end.

(** [delete(userId)] *)
Definition delete (rows : table) (userId : string) : Call AIMemory.t AIMemory.t :=
  Prisma.delete AIMemory.userId rows userId.

End aiMemoryService.

Module aiMemoryRouter.

(** The catch block of the three writing routes: a thrown message that
    names the missing user is a 404 and a failed foreign key a 400; [flag]
    is the success field the route puts in its error bodies. *)
Definition caught (e : Error) (flag : option bool) (msg : string) : Reply AIMemory.t :=
  match e with
  | Thrown text =>
      if includes "User with ID" text && includes "not found" text
      then replyError 404 flag "User not found"
      else replyError 500 flag msg
  | P2003 => replyError 400 flag "Invalid user ID - user does not exist"
  | _ => replyError 500 flag msg
  end.

(** GET /:userId *)
Definition get (rows : aiMemoryService.table) (userId : string) : Reply AIMemory.t :=
  match aiMemoryService.getByUser rows userId with
  | None => replyError 404 (Some false) "AI memory not found for this user"
  | Some m => replyData 200 m
  end.

(** POST /:userId: [summary], [goals] and [preferences] of the body reach
    the service. *)
Definition post (users : list User.t) (rows : aiMemoryService.table) (now : Z)
    (userId : string) (summary : option string) (goals preferences : option Json)
  : Reply AIMemory.t * aiMemoryService.table :=
  match aiMemoryService.upsert users rows now userId
          {| m_summary := summary; m_goals := goals; m_preferences := preferences;
             m_extractionConfidence := None; m_extractionWarnings := None;
             m_extractedAt := None |} with
  | (Ok m, rows') => (replyData 200 m, rows')
  | (Err e, rows') => (caught e (Some false) "Failed to update AI memory", rows')
  end.

(** [!body || Object.keys(body).length === 0] *)
Definition emptyBody (body : Json) : bool :=
  negb (truthyJson body) || Nat.eqb (keyCount body) 0.

(** PATCH /:userId/goals: the whole body is the goals value. *)
Definition patch_goals (users : list User.t) (rows : aiMemoryService.table) (now : Z)
    (userId : string) (body : Json) : Reply AIMemory.t * aiMemoryService.table :=
  if emptyBody body then (replyError 400 None "Goals data is required", rows)
  else
    match aiMemoryService.updateGoals users rows now userId body with
    | (Ok m, rows') => (replyData 200 m, rows')
    | (Err e, rows') => (caught e None "Failed to update goals", rows')
    end.

(** PATCH /:userId/preferences *)
Definition patch_preferences (users : list User.t) (rows : aiMemoryService.table)
    (now : Z) (userId : string) (body : Json)
  : Reply AIMemory.t * aiMemoryService.table :=
  if emptyBody body then (replyError 400 None "Preferences data is required", rows)
  else
    match aiMemoryService.updatePreferences users rows now userId body with
    | (Ok m, rows') => (replyData 200 m, rows')
    | (Err e, rows') => (caught e None "Failed to update preferences", rows')
    end.

(** DELETE /:userId *)
Definition delete (rows : aiMemoryService.table) (userId : string)
  : Reply AIMemory.t * aiMemoryService.table :=
  match aiMemoryService.delete rows userId with
  | (Ok _, rows') => (replyMessage "AI memory deleted successfully", rows')
  | (Err _, rows') => (replyError 500 None "Failed to delete AI memory", rows')
  end.

End aiMemoryRouter.

(** What [userService.getById] returns: the user with the related rows it
    includes. *)
Record UserView : Type := {
  v_user : User.t;
  v_aiMemory : option AIMemory.t;
  v_messages : list Message.t;
  v_reminders : list Reminder.t
}.

Module userService.

(** [getById(userId)]: the user, its memory, its last 10 messages and its
    open reminders. *)
Definition getById (users : list User.t) (memories : aiMemoryService.table)
    (messages : messageService.table) (reminders : reminderService.table)
    (userId : string) : option UserView :=
  match Prisma.findUnique User.id users userId with
  | None => None
  | Some u =>
      Some {| v_user := u;
              v_aiMemory := Prisma.findUnique AIMemory.userId memories (User.id u);
              v_messages :=
                Prisma.take 10
                  (Prisma.orderByDesc Message.createdAt
                     (filter (fun m => String.eqb (Message.userId m) (User.id u)) messages));
              v_reminders :=
                Prisma.findMany
                  (filter (fun r => String.eqb (Reminder.userId r) (User.id u)) reminders)
                  (fun r => negb (Reminder.completed r))
                  Reminder.dueDate |}
  end.

(** [update(userId, { name })], as the route calls it. *)
Definition update (users : list User.t) (userId : string) (name : option string)
  : Call User.t User.t :=
  Prisma.update User.id users userId
    (fun u =>
       {| User.id := User.id u;
          User.email := User.email u;
          User.name := setOpt name (User.name u);
          User.passwordHash := User.passwordHash u |}).

End userService.

Module userRouter.

(** GET /:id *)
Definition get (users : list User.t) (memories : aiMemoryService.table)
    (messages : messageService.table) (reminders : reminderService.table)
    (id : string) : Reply UserView :=
  match userService.getById users memories messages reminders id with
  | None => replyError 404 (Some false) "User not found"
  | Some v => replyData 200 v
  end.

(** PUT /:id *)
Definition put (users : list User.t) (memories : aiMemoryService.table)
    (messages : messageService.table) (reminders : reminderService.table)
    (id : string) (name : option string) : Reply User.t * list User.t :=
  match userService.getById users memories messages reminders id with
  | None => (replyError 404 (Some false) "User not found", users)
  | Some _ =>
      match userService.update users id name with
      | (Ok u, users') => (replyData 200 u, users')
      | (Err P2025, users') => (replyError 404 (Some false) "User not found", users')
      | (Err _, users') => (replyError 500 (Some false) "Failed to update user", users')
      end
  end.

End userRouter.

(* ====================================================================== *)
(** ** The string forms, as the specification words them *)
(* ====================================================================== *)

Module Shape.

(** Value of a digit character. *)
Definition val (c : ascii) : Z := JS.code c - 48.

Definition two (a b : ascii) : Z := 10 * val a + val b.

(** Strict [HH:mm]: two digits, a colon, two digits, hour 00-23 and
    minute 00-59. *)
Definition strictClock (s : string) : bool :=
  match s with
  | String h1 (String h2 (String c (String m1 (String m2 EmptyString)))) =>
      JS.isDigit h1 && JS.isDigit h2 && JS.isChar 58 c
      && JS.isDigit m1 && JS.isDigit m2
      && (two h1 h2 <=? 23) && (two m1 m2 <=? 59)
  | _ => false
  end.

(** [H:mm]: a single hour digit, a colon, two digits, minute 00-59. *)
Definition shortClock (s : string) : bool :=
  match s with
  | String h1 (String c (String m1 (String m2 EmptyString))) =>
      JS.isDigit h1 && JS.isChar 58 c
      && JS.isDigit m1 && JS.isDigit m2 && (two m1 m2 <=? 59)
  | _ => false
  end.

(** The digit form [YYYY-MM-DD]: digits and dashes at their places. *)
Definition ymd (s : string) : bool :=
  match s with
  | String y1 (String y2 (String y3 (String y4 (String a
      (String m1 (String m2 (String b (String d1 (String d2 EmptyString))))))))) =>
      JS.isDigit y1 && JS.isDigit y2 && JS.isDigit y3 && JS.isDigit y4
      && JS.isChar 45 a && JS.isDigit m1 && JS.isDigit m2
      && JS.isChar 45 b && JS.isDigit d1 && JS.isDigit d2
  | _ => false
  end.

End Shape.

(* ====================================================================== *)
(** ** Sample tables *)
(* ====================================================================== *)

Module Sample.

(** 2024-03-01T00:00:00Z, the clock reading of the scenarios. *)
Definition now : Z := 1709251200000.

Definition day : Z := JS.msPerDay.

Definition reminder (i ttl kind : string) (due : Z) (done : bool) : Reminder.t :=
  {| Reminder.id := i; Reminder.userId := "u1"; Reminder.title := ttl;
     Reminder.dueDate := due; Reminder.repeatType := kind;
     Reminder.repeatUntil := None; Reminder.interval := 1;
     Reminder.completed := done |}.

(** A daily reminder with no end date, due tomorrow. *)
Definition stretch : Reminder.t := reminder "r1" "Stretch" "daily" (now + day) false.

(** A one-time reminder, due in three days. *)
Definition checkup : Reminder.t := reminder "r2" "Check-up" "none" (now + 3 * day) false.

(** A one-time reminder that was due thirty days ago and is still open. *)
Definition overdue : Reminder.t := reminder "r3" "Renew pass" "none" (now - 30 * day) false.

(** Three reminders due at the same instant, in the row order b, a, c. *)
Definition tied : list Reminder.t :=
  [ reminder "b" "Water" "none" (now + day) false;
    reminder "a" "Walk" "none" (now + day) false;
    reminder "c" "Sleep" "none" (now + day) false ].

(** The user table of the scenarios: the one user [u1]. *)
Definition users : list User.t :=
  [ {| User.id := "u1"; User.email := "ann@example.com"; User.name := Some "Ann";
       User.passwordHash := None |} ].

Definition noInput : ReminderInput :=
  {| in_title := None; in_dueDate := None; in_repeatType := None;
     in_repeatUntil := None; in_interval := None |}.

Definition rename (ttl : string) : ReminderInput :=
  {| in_title := Some ttl; in_dueDate := None; in_repeatType := None;
     in_repeatUntil := None; in_interval := None |}.

(** A request body whose due date is a full UTC date-time string. *)
Definition stamped : ReminderInput :=
  {| in_title := Some "Stretch"; in_dueDate := Some "2024-01-05T10:30:00.000Z";
     in_repeatType := Some "daily"; in_repeatUntil := None; in_interval := None |}.

Definition event (d t : option string) : EventInput :=
  {| ev_userId := "u1"; ev_title := Some "Leg day"; ev_type := None;
     ev_date := d; ev_time := t; ev_description := None; ev_completed := None;
     ev_recurring := None; ev_recurringDays := None; ev_recurringEndDate := None |}.

End Sample.

(* ====================================================================== *)
(** ** More sample rows *)
(* ====================================================================== *)

Module Fixture.

(** A one-time reminder that has been completed. *)
Definition paid : Reminder.t :=
  Sample.reminder "r4" "Pay gym" "none" (Sample.now + 2 * Sample.day) true.

Definition reminders : list Reminder.t :=
  [Sample.checkup; Fixture.paid; Sample.stretch].

(** A request body with an unreadable due date. *)
Definition vague : ReminderInput :=
  {| in_title := Some "Stretch more"; in_dueDate := Some "tomorrow";
     in_repeatType := None; in_repeatUntil := None; in_interval := None |}.

Definition message (i u txt : string) (at_ : Z) : Message.t :=
  {| Message.id := i; Message.text := txt; Message.userId := u;
     Message.role := "user"; Message.createdAt := at_ |}.

Definition messages : list Message.t :=
  [ message "m1" "u1" "Hi" 10; message "m2" "u2" "Hello" 20;
    message "m3" "u1" "Plan?" 30; message "m4" "u1" "Thanks" 40 ].

Definition said (txt : string) (role : option string) : MessageInput :=
  {| msg_text := Some txt; msg_userId := Some "u1"; msg_role := role |}.

Definition ann : User.t :=
  {| User.id := "u1"; User.email := "ann@example.com"; User.name := Some "Ann";
     User.passwordHash := None |}.

Definition memory : AIMemory.t :=
  {| AIMemory.userId := "u1"; AIMemory.summary := Some "Runner";
     AIMemory.goals := Some (JArr [JStr "5k"]);
     AIMemory.preferences := Some (JObj [("tone", JStr "brief")]);
     AIMemory.extractionConfidence := Some (JNum 1);
     AIMemory.extractionWarnings := Some (JStr "none");
     AIMemory.extractedAt := Some (JStr "2024-02-01");
     AIMemory.lastSync := None |}.

Definition legDay : CalendarEvent.t :=
  {| CalendarEvent.id := "e1"; CalendarEvent.userId := "u1";
     CalendarEvent.title := "Leg day"; CalendarEvent.type := "event";
     CalendarEvent.date := Some Sample.now; CalendarEvent.time := Some "18:00";
     CalendarEvent.description := None; CalendarEvent.recurring := Some "weekly";
     CalendarEvent.recurringDays := None; CalendarEvent.recurringEndDate := None;
     CalendarEvent.completed := false |}.

(** The event that creating [Sample.event] on 2024-03-01 at 18:00 stores. *)
Definition session : CalendarEvent.t :=
  {| CalendarEvent.id := "e1"; CalendarEvent.userId := "u1";
     CalendarEvent.title := "Leg day"; CalendarEvent.type := "event";
     CalendarEvent.date := Some Sample.now; CalendarEvent.time := Some "18:00";
     CalendarEvent.description := None; CalendarEvent.recurring := None;
     CalendarEvent.recurringDays := None; CalendarEvent.recurringEndDate := None;
     CalendarEvent.completed := false |}.

Definition evening : EventInput := Sample.event (Some "2024-03-01") (Some "18:00").

(** An update that names recurrence fields only. *)
Definition recurOnly : EventInput :=
  {| ev_userId := "u1"; ev_title := None; ev_type := None; ev_date := None;
     ev_time := None; ev_description := None; ev_completed := None;
     ev_recurring := Some "daily"; ev_recurringDays := None;
     ev_recurringEndDate := Some "2024-12-31" |}.

Definition retitle (ttl : string) : EventInput :=
  {| ev_userId := "u1"; ev_title := Some ttl; ev_type := None; ev_date := None;
     ev_time := None; ev_description := None; ev_completed := None;
     ev_recurring := Some "daily"; ev_recurringDays := None;
     ev_recurringEndDate := None |}.

End Fixture.

(* ====================================================================== *)
(** ** The table operations *)
(* ====================================================================== *)

Section TableFacts.

Variable T : Type.
Variable key : T -> string.

Lemma findUnique_key (rows : list T) (i : string) (r : T) :
  Prisma.findUnique key rows i = Some r -> key r = i.
Proof.
  induction rows as [|x rest IH]; simpl; [discriminate|].
  destruct (String.eqb (key x) i) eqn:E.
  - intros H. injection H as <-. now apply String.eqb_eq.
  - exact IH.
Qed.

Lemma findUnique_In (rows : list T) (i : string) (r : T) :
  Prisma.findUnique key rows i = Some r -> In r rows.
Proof.
  induction rows as [|x rest IH]; simpl; [discriminate|].
  destruct (String.eqb (key x) i).
  - intros H. injection H as <-. now left.
  - intros H. right. now apply IH.
Qed.

Lemma findUnique_replaceRow (rows : list T) (i : string) (r r' : T) :
  Prisma.findUnique key rows i = Some r -> key r' = i ->
  Prisma.findUnique key (Prisma.replaceRow key rows i r') i = Some r'.
Proof.
  intros Hf Hk. induction rows as [|x rest IH]; simpl in *; [discriminate|].
  destruct (String.eqb (key x) i) eqn:E; simpl.
  - rewrite Hk, String.eqb_refl. reflexivity.
  - rewrite E. now apply IH.
Qed.

Lemma replaceRow_again (rows : list T) (i : string) (r' : T) :
  key r' = i ->
  Prisma.replaceRow key (Prisma.replaceRow key rows i r') i r'
  = Prisma.replaceRow key rows i r'.
Proof.
  intros Hk. induction rows as [|x rest IH]; simpl; [reflexivity|].
  destruct (String.eqb (key x) i) eqn:E; simpl.
  - rewrite Hk, String.eqb_refl. reflexivity.
  - rewrite E. now rewrite IH.
Qed.

Lemma insertBy_perm (k : T -> Z) (x : T) (l : list T) :
  Permutation (x :: l) (Prisma.insertBy k x l).
Proof.
  induction l as [|y l IH]; simpl; [reflexivity|].
  destruct (k x <=? k y); [reflexivity|].
  rewrite perm_swap. now constructor.
Qed.

Lemma orderByAsc_perm (k : T -> Z) (l : list T) :
  Permutation l (Prisma.orderByAsc k l).
Proof.
  induction l as [|x l IH]; simpl; [constructor|].
  etransitivity; [|apply insertBy_perm]. now constructor.
Qed.

Lemma insertBy_sorted (k : T -> Z) (x : T) (l : list T) :
  StronglySorted (fun a b => k a <= k b) l ->
  StronglySorted (fun a b => k a <= k b) (Prisma.insertBy k x l).
Proof.
  induction 1 as [|y l Hs IH Hall]; simpl.
  - repeat constructor.
  - destruct (k x <=? k y) eqn:E.
    + apply Z.leb_le in E. constructor; [now constructor|].
      constructor; [exact E|].
      eapply Forall_impl; [|exact Hall]. simpl. intros; lia.
    + apply Z.leb_gt in E. constructor; [exact IH|].
      eapply Permutation_Forall; [apply insertBy_perm|].
      constructor; [lia|exact Hall].
Qed.

Lemma orderByAsc_sorted (k : T -> Z) (l : list T) :
  StronglySorted (fun a b => k a <= k b) (Prisma.orderByAsc k l).
Proof.
  induction l as [|x l IH]; simpl; [constructor|].
  now apply insertBy_sorted.
Qed.

Lemma findMany_In (rows : list T) (w : T -> bool) (k : T -> Z) (r : T) :
  In r (Prisma.findMany rows w k) <-> In r rows /\ w r = true.
Proof.
  unfold Prisma.findMany. rewrite <- filter_In. split.
  - apply Permutation_in. symmetry. apply orderByAsc_perm.
  - apply Permutation_in. apply orderByAsc_perm.
Qed.

End TableFacts.

Arguments findUnique_key {T} key rows i r _.
Arguments findUnique_In {T} key rows i r _.
Arguments findUnique_replaceRow {T} key rows i r r' _ _.
Arguments replaceRow_again {T} key rows i r' _.
Arguments orderByAsc_sorted {T} k l.
Arguments findMany_In {T} rows w k r.

(* ====================================================================== *)
(** ** Completion *)
(* ====================================================================== *)

(** The row [r] with its [completed] column set and nothing else changed. *)
Lemma applyData_completed (r : Reminder.t) :
  applyData reminderService.completedData r
  = {| Reminder.id := Reminder.id r;
       Reminder.userId := Reminder.userId r;
       Reminder.title := Reminder.title r;
       Reminder.dueDate := Reminder.dueDate r;
       Reminder.repeatType := Reminder.repeatType r;
       Reminder.repeatUntil := Reminder.repeatUntil r;
       Reminder.interval := Reminder.interval r;
       Reminder.completed := true |}.
Proof. destruct r as [i u t d k un n c]. reflexivity. Qed.

Lemma markCompleted_found (rows : reminderService.table) (i : string) (r : Reminder.t) :
  Prisma.findUnique Reminder.id rows i = Some r ->
  reminderService.markCompleted rows i
  = (Ok (applyData reminderService.completedData r),
     Prisma.replaceRow Reminder.id rows i (applyData reminderService.completedData r)).
Proof.
  intros H. unfold reminderService.markCompleted, Prisma.update. now rewrite H.
Qed.

Lemma markCompleted_missing (rows : reminderService.table) (i : string) :
  Prisma.findUnique Reminder.id rows i = None ->
  reminderService.markCompleted rows i = (Err P2025, rows).
Proof.
  intros H. unfold reminderService.markCompleted, Prisma.update. now rewrite H.
Qed.

(** C1, as the code has it: for every stored reminder, recurring or not,
    [markCompleted] succeeds, the returned and stored row has
    [completed = true], and every other column keeps its value. *)
Theorem markCompleted_sets_completed
    (rows : reminderService.table) (i : string) (r : Reminder.t) :
  Prisma.findUnique Reminder.id rows i = Some r ->
  exists r' rows',
    reminderService.markCompleted rows i = (Ok r', rows')
    /\ Prisma.findUnique Reminder.id rows' i = Some r'
    /\ Reminder.completed r' = true
    /\ Reminder.id r' = Reminder.id r
    /\ Reminder.userId r' = Reminder.userId r
    /\ Reminder.title r' = Reminder.title r
    /\ Reminder.dueDate r' = Reminder.dueDate r
    /\ Reminder.repeatType r' = Reminder.repeatType r
    /\ Reminder.repeatUntil r' = Reminder.repeatUntil r
    /\ Reminder.interval r' = Reminder.interval r.
Proof.
  intros H.
  exists (applyData reminderService.completedData r).
  exists (Prisma.replaceRow Reminder.id rows i (applyData reminderService.completedData r)).
  split; [now apply markCompleted_found|].
  split.
  - apply (findUnique_replaceRow Reminder.id rows i r); [exact H|].
    rewrite applyData_completed. simpl. now apply (findUnique_key Reminder.id rows).
  - rewrite applyData_completed. simpl. repeat split; reflexivity.
Qed.

Lemma markCompleted_sets_completed_witness :
  exists r' rows',
    reminderService.markCompleted [Sample.checkup; Sample.stretch] "r1" = (Ok r', rows')
    /\ Prisma.findUnique Reminder.id rows' "r1" = Some r'
    /\ Reminder.completed r' = true
    /\ Reminder.id r' = Reminder.id Sample.stretch
    /\ Reminder.userId r' = Reminder.userId Sample.stretch
    /\ Reminder.title r' = Reminder.title Sample.stretch
    /\ Reminder.dueDate r' = Reminder.dueDate Sample.stretch
    /\ Reminder.repeatType r' = Reminder.repeatType Sample.stretch
    /\ Reminder.repeatUntil r' = Reminder.repeatUntil Sample.stretch
    /\ Reminder.interval r' = Reminder.interval Sample.stretch.
Proof.
  apply (markCompleted_sets_completed [Sample.checkup; Sample.stretch] "r1" Sample.stretch).
  reflexivity.
Defined.

(** C1, as stated, fails: a daily reminder with no end date (its rule can
    never be exhausted) is pending; [markCompleted] returns and stores it
    with [completed = true]. *)
Lemma markCompleted_recurring_completed :
  Reminder.repeatType Sample.stretch = "daily"
  /\ Reminder.repeatUntil Sample.stretch = None
  /\ Reminder.completed Sample.stretch = false
  /\ reminderService.markCompleted [Sample.stretch] "r1"
     = (Ok (Sample.reminder "r1" "Stretch" "daily" (Sample.now + Sample.day) true),
        [Sample.reminder "r1" "Stretch" "daily" (Sample.now + Sample.day) true]).
Proof. repeat split. Qed.

(** C8: for a stored reminder whose rule kind is [none], a second
    [markCompleted] succeeds, returns the same row and leaves the table as
    the first call left it. *)
Theorem markCompleted_twice
    (rows : reminderService.table) (i : string) (r : Reminder.t) :
  Prisma.findUnique Reminder.id rows i = Some r ->
  Reminder.repeatType r = "none" ->
  exists r1 rows1,
    reminderService.markCompleted rows i = (Ok r1, rows1)
    /\ reminderService.markCompleted rows1 i = (Ok r1, rows1).
Proof.
  intros H _.
  set (r1 := applyData reminderService.completedData r).
  assert (Hk : Reminder.id r1 = i).
  { unfold r1. rewrite applyData_completed. simpl.
    now apply (findUnique_key Reminder.id rows). }
  exists r1, (Prisma.replaceRow Reminder.id rows i r1).
  split; [now apply markCompleted_found|].
  rewrite (markCompleted_found _ i r1).
  - assert (Hfix : applyData reminderService.completedData r1 = r1).
    { unfold r1. now rewrite !applyData_completed. }
    rewrite Hfix. now rewrite replaceRow_again.
  - now apply (findUnique_replaceRow Reminder.id rows i r).
Qed.

Lemma markCompleted_twice_witness :
  exists r1 rows1,
    reminderService.markCompleted [Sample.stretch; Sample.checkup] "r2" = (Ok r1, rows1)
    /\ reminderService.markCompleted rows1 "r2" = (Ok r1, rows1).
Proof.
  apply (markCompleted_twice [Sample.stretch; Sample.checkup] "r2" Sample.checkup);
    reflexivity.
Defined.

(* ====================================================================== *)
(** ** Update and delete through the routes *)
(* ====================================================================== *)

Lemma update_unchanged_or_patched (h : JS.Host) (rows : reminderService.table)
    (i : string) (x : ReminderInput) (r : Reminder.t) :
  Prisma.findUnique Reminder.id rows i = Some r ->
  (exists e, reminderService.update h rows i x = (Err e, rows))
  \/ (exists d,
        reminderService.update h rows i x
        = (Ok (applyData d r), Prisma.replaceRow Reminder.id rows i (applyData d r))
        /\ d_title d = in_title x
        /\ d_repeatType d = in_repeatType x
        /\ d_interval d = in_interval x
        /\ (in_dueDate x = None -> d_dueDate d = None)
        /\ (in_repeatUntil x = None -> d_repeatUntil d = None)).
Proof.
  intros H. unfold reminderService.update.
  destruct (invalidArg (dateOr h (in_dueDate x) Undefined)
            || invalidArg (dateOr h (in_repeatUntil x) Undefined)).
  - left. now exists PrismaValidation.
  - right. eexists. unfold Prisma.update. rewrite H.
    split; [reflexivity|]. simpl.
    repeat split; intros ->; reflexivity.
Qed.

(** C9: for a stored reminder, after PUT /:id the stored row keeps the
    value of each of [title], [dueDate], [repeatType], [repeatUntil] and
    [interval] that the request body leaves out. *)
Theorem put_keeps_absent_fields (h : JS.Host) (rows : reminderService.table)
    (i : string) (body : ReminderInput) (r : Reminder.t) :
  Prisma.findUnique Reminder.id rows i = Some r ->
  exists r',
    Prisma.findUnique Reminder.id (snd (router.put h rows i body)) i = Some r'
    /\ (in_title body = None -> Reminder.title r' = Reminder.title r)
    /\ (in_dueDate body = None -> Reminder.dueDate r' = Reminder.dueDate r)
    /\ (in_repeatType body = None -> Reminder.repeatType r' = Reminder.repeatType r)
    /\ (in_repeatUntil body = None -> Reminder.repeatUntil r' = Reminder.repeatUntil r)
    /\ (in_interval body = None -> Reminder.interval r' = Reminder.interval r).
Proof.
  intros H. unfold router.put.
  destruct (update_unchanged_or_patched h rows i body r H)
    as [[e He] | [d [Hd [Ht [Hk [Hn [Hdue Hun]]]]]]].
  - rewrite He. simpl. exists r. repeat split; auto.
  - rewrite Hd. simpl. exists (applyData d r). split.
    + apply (findUnique_replaceRow Reminder.id rows i r); [exact H|].
      simpl. now apply (findUnique_key Reminder.id rows).
    + simpl. rewrite Ht, Hk, Hn.
      repeat split; intros E; try (rewrite E; reflexivity).
      * rewrite (Hdue E). reflexivity.
      * rewrite (Hun E). reflexivity.
Qed.

Lemma put_keeps_absent_fields_witness :
  exists r',
    Prisma.findUnique Reminder.id
      (snd (router.put JS.utcHost [Sample.stretch; Sample.checkup] "r1"
              (Sample.rename "Stretch more"))) "r1" = Some r'
    /\ (in_title (Sample.rename "Stretch more") = None ->
        Reminder.title r' = Reminder.title Sample.stretch)
    /\ (in_dueDate (Sample.rename "Stretch more") = None ->
        Reminder.dueDate r' = Reminder.dueDate Sample.stretch)
    /\ (in_repeatType (Sample.rename "Stretch more") = None ->
        Reminder.repeatType r' = Reminder.repeatType Sample.stretch)
    /\ (in_repeatUntil (Sample.rename "Stretch more") = None ->
        Reminder.repeatUntil r' = Reminder.repeatUntil Sample.stretch)
    /\ (in_interval (Sample.rename "Stretch more") = None ->
        Reminder.interval r' = Reminder.interval Sample.stretch).
Proof.
  apply (put_keeps_absent_fields JS.utcHost [Sample.stretch; Sample.checkup] "r1"
           (Sample.rename "Stretch more") Sample.stretch).
  reflexivity.
Defined.

Example put_renames :
  router.put JS.utcHost [Sample.stretch] "r1" (Sample.rename "Stretch more")
  = (answer 200 (One (Sample.reminder "r1" "Stretch more" "daily" (Sample.now + Sample.day) false)),
     [Sample.reminder "r1" "Stretch more" "daily" (Sample.now + Sample.day) false]).
Proof. reflexivity. Qed.

Lemma update_missing (h : JS.Host) (rows : reminderService.table)
    (i : string) (x : ReminderInput) :
  Prisma.findUnique Reminder.id rows i = None ->
  exists e, reminderService.update h rows i x = (Err e, rows).
Proof.
  intros H. unfold reminderService.update.
  destruct (invalidArg _ || invalidArg _).
  - now exists PrismaValidation.
  - exists P2025. unfold Prisma.update. now rewrite H.
Qed.

(** C5, as the code has it: a request for a reminder id that is not in the
    table is answered with status 500 and an error text, whether it is a
    delete, a completion or an update, and the table is left as it was. *)
Theorem missing_id_is_500 (h : JS.Host) (rows : reminderService.table)
    (i : string) (body : ReminderInput) :
  Prisma.findUnique Reminder.id rows i = None ->
  router.delete rows i = (failure 500 None "Failed to delete reminder", rows)
  /\ router.patch_complete rows i = (failure 500 None "Failed to complete reminder", rows)
  /\ router.put h rows i body = (failure 500 None "Failed to update reminder", rows).
Proof.
  intros H. repeat split.
  - unfold router.delete, reminderService.delete, Prisma.delete. now rewrite H.
  - unfold router.patch_complete. now rewrite markCompleted_missing.
  - unfold router.put. destruct (update_missing h rows i body H) as [e ->].
    reflexivity.
Qed.

Lemma missing_id_is_500_witness :
  router.delete [Sample.stretch] "r9"
  = (failure 500 None "Failed to delete reminder", [Sample.stretch])
  /\ router.patch_complete [Sample.stretch] "r9"
     = (failure 500 None "Failed to complete reminder", [Sample.stretch])
  /\ router.put JS.utcHost [Sample.stretch] "r9" (Sample.rename "x")
     = (failure 500 None "Failed to update reminder", [Sample.stretch]).
Proof.
  apply (missing_id_is_500 JS.utcHost [Sample.stretch] "r9" (Sample.rename "x")).
  reflexivity.
Defined.

(** C5, as stated, fails: deleting a reminder and then deleting the same
    id again answers 200 the first time and 500, with an error text and no
    success flag, the second time. *)
Lemma delete_again_is_500 :
  router.delete [Sample.stretch] "r1"
  = ({| status := 200; success := Some true; data := NoData; error := None;
        message := Some "Reminder deleted successfully" |}, [])
  /\ status (fst (router.delete [] "r1")) = 500
  /\ success (fst (router.delete [] "r1")) = None
  /\ error (fst (router.delete [] "r1")) = Some "Failed to delete reminder"
  /\ status (fst (router.patch_complete [] "r1")) = 500.
Proof. repeat split. Qed.

(* ====================================================================== *)
(** ** The horizon parameter *)
(* ====================================================================== *)

Lemma orElse_default (x : option Z) (d : Z) :
  x = None \/ x = Some 0 -> JS.orElse x d = d.
Proof. intros [-> | ->]; reflexivity. Qed.

Lemma orElse_value (n d : Z) : n <> 0 -> JS.orElse (Some n) d = n.
Proof.
  intros H. unfold JS.orElse. destruct (n =? 0) eqn:E; [|reflexivity].
  apply Z.eqb_eq in E. contradiction.
Qed.

(** A text whose first character is neither white space, a sign nor a
    decimal digit is not a number for [parseInt]. *)
Lemma parseInt_non_numeric (c : ascii) (s : string) :
  JS.isWhite c = false -> JS.isChar 45 c = false -> JS.isChar 43 c = false ->
  JS.isDigit c = false ->
  JS.parseInt (String c s) = None.
Proof.
  intros Hw Hm Hp Hd. unfold JS.parseInt. simpl. rewrite Hw. simpl.
  rewrite Hm, Hp.
  assert (H0 : JS.isChar 48 c = false).
  { unfold JS.isDigit, JS.inRange, JS.isChar in *.
    destruct (JS.code c =? 48) eqn:E; [|reflexivity].
    apply Z.eqb_eq in E. rewrite E in Hd. discriminate. }
  assert (Hr : JS.readRadix (String c s) = (10, String c s)).
  { unfold JS.readRadix. destruct s; [reflexivity|]. now rewrite H0. }
  rewrite Hr. simpl. unfold JS.digitVal.
  unfold JS.isDigit in Hd. rewrite Hd.
  destruct (JS.inRange 97 122 c) eqn:E1.
  - unfold JS.inRange in E1. apply andb_prop in E1 as [E1 _].
    apply Z.leb_le in E1.
    destruct (JS.code c - 87 <? 10) eqn:E; [|reflexivity].
    apply Z.ltb_lt in E. lia.
  - destruct (JS.inRange 65 90 c) eqn:E2; [|reflexivity].
    unfold JS.inRange in E2. apply andb_prop in E2 as [E2 _].
    apply Z.leb_le in E2.
    destruct (JS.code c - 55 <? 10) eqn:E; [|reflexivity].
    apply Z.ltb_lt in E. lia.
Qed.

(** C10: when the [days] query parameter is missing, or [parseInt] makes
    [NaN] or zero of it, the route asks for a horizon of 7 days: its answer
    is the one it gives with no parameter at all. *)
Theorem days_default (h : JS.Host) (rows : reminderService.table)
    (userId : string) (now : Z) (q : option string) :
  q = None
  \/ (exists s, q = Some s /\ (JS.parseInt s = None \/ JS.parseInt s = Some 0)) ->
  router.daysOf q = 7
  /\ router.get_upcoming h rows userId q now
     = match reminderService.getUpcoming h rows userId 7 now with
       | Ok l => answer 200 (Many l)
       | Err _ => failure 500 (Some false) "Failed to fetch upcoming reminders"
       end.
Proof.
  intros H.
  assert (Hd : router.daysOf q = 7).
  { destruct H as [-> | [s [-> Hs]]]; [reflexivity|].
    unfold router.daysOf. now apply orElse_default. }
  split; [exact Hd|]. unfold router.get_upcoming. now rewrite Hd.
Qed.

Lemma days_default_witness :
  router.daysOf (Some "0") = 7
  /\ router.get_upcoming JS.utcHost [Sample.stretch] "u1" (Some "0") Sample.now
     = match reminderService.getUpcoming JS.utcHost [Sample.stretch] "u1" 7 Sample.now with
       | Ok l => answer 200 (Many l)
       | Err _ => failure 500 (Some false) "Failed to fetch upcoming reminders"
       end.
Proof.
  apply (days_default JS.utcHost [Sample.stretch] "u1" Sample.now (Some "0")).
  right. exists "0". split; [reflexivity|]. right. reflexivity.
Defined.

(** The parsed value is the horizon exactly when it is a non-zero number. *)
Lemma days_parsed (s : string) (n : Z) :
  JS.parseInt s = Some n -> n <> 0 -> router.daysOf (Some s) = n.
Proof.
  intros Hp Hn. unfold router.daysOf. rewrite Hp. now apply orElse_value.
Qed.

Example days_examples :
  router.daysOf None = 7 /\ router.daysOf (Some "soon") = 7
  /\ router.daysOf (Some "0") = 7 /\ router.daysOf (Some "-0") = 7
  /\ router.daysOf (Some "14") = 14 /\ router.daysOf (Some " 3 days") = 3
  /\ router.daysOf (Some "-2") = -2 /\ router.daysOf (Some "0x10") = 16.
Proof. repeat split. Qed.

(* ====================================================================== *)
(** ** The upcoming query *)
(* ====================================================================== *)

Lemma getUpcoming_ok (h : JS.Host) (rows : reminderService.table)
    (u : string) (days now e : Z) :
  reminderService.endDate h now days = Some e ->
  reminderService.getUpcoming h rows u days now
  = Ok (Prisma.findMany rows
          (fun r => String.eqb (Reminder.userId r) u
                    && negb (Reminder.completed r)
                    && (Reminder.dueDate r <=? e))
          Reminder.dueDate).
Proof. intros H. unfold reminderService.getUpcoming. now rewrite H. Qed.

Lemma getUpcoming_In (h : JS.Host) (rows : reminderService.table)
    (u : string) (days now e : Z) (l : list Reminder.t) (r : Reminder.t) :
  reminderService.endDate h now days = Some e ->
  reminderService.getUpcoming h rows u days now = Ok l ->
  (In r l <->
   In r rows /\ Reminder.userId r = u /\ Reminder.completed r = false
   /\ Reminder.dueDate r <= e).
Proof.
  intros He Hl. rewrite (getUpcoming_ok h rows u days now e He) in Hl.
  injection Hl as <-. rewrite findMany_In.
  rewrite !andb_true_iff, String.eqb_eq, negb_true_iff, Z.leb_le. tauto.
Qed.

(** In the UTC zone the horizon ends [days] whole days after [now]. *)
Lemma endDate_utc (now days : Z) :
  Z.abs (now + days * JS.msPerDay) <= JS.maxTime ->
  reminderService.endDate JS.utcHost now days = Some (now + days * JS.msPerDay).
Proof.
  intros H. unfold reminderService.endDate, JS.addDays, JS.UTC, JS.LocalTime, JS.TimeClip.
  simpl. rewrite Z.add_0_r, Z.sub_0_r.
  apply Z.leb_le in H. now rewrite H.
Qed.

(** In a table with distinct ids, after [markCompleted] of a stored id the
    only row under that id is the completed one. *)
Lemma markCompleted_only_row (rows rows' : reminderService.table) (i : string)
    (r' x : Reminder.t) :
  NoDup (map Reminder.id rows) ->
  reminderService.markCompleted rows i = (Ok r', rows') ->
  In x rows' -> Reminder.id x = i -> Reminder.completed x = true.
Proof.
  unfold reminderService.markCompleted, Prisma.update.
  destruct (Prisma.findUnique Reminder.id rows i) as [r|] eqn:Hf; [|discriminate].
  intros Hnd H. injection H as _ <-. clear r'.
  revert Hnd Hf. induction rows as [|y rest IH]; simpl; [discriminate|].
  intros Hnd Hf Hin Hx. inversion Hnd as [|k ks Hnotin Hrest]; subst.
  destruct (String.eqb (Reminder.id y) (Reminder.id x)) eqn:E.
  - injection Hf as <-. destruct Hin as [<- | Hin].
    + now rewrite applyData_completed.
    + apply String.eqb_eq in E. contradiction Hnotin. rewrite E. now apply in_map.
  - destruct Hin as [<- | Hin].
    + rewrite String.eqb_refl in E. discriminate.
    + now apply IH.
Qed.

(** C2, as the code has it: with a valid horizon end [e], the query
    succeeds; every reminder it returns is a stored reminder of the user
    that is not completed and is due at or before [e]; every stored,
    uncompleted reminder of the user due between [now] and [e] is returned;
    and, in a table with distinct ids, once [markCompleted] has been
    applied to a reminder, one-time or recurring, the query on the table it
    left returns no reminder with that id. *)
Theorem upcoming_characterised (h : JS.Host) (rows : reminderService.table)
    (u : string) (days now e : Z) :
  reminderService.endDate h now days = Some e ->
  exists l,
    reminderService.getUpcoming h rows u days now = Ok l
    /\ (forall r, In r l ->
          In r rows /\ Reminder.userId r = u /\ Reminder.completed r = false
          /\ Reminder.dueDate r <= e)
    /\ (forall r, In r rows -> Reminder.userId r = u ->
          Reminder.completed r = false ->
          now <= Reminder.dueDate r <= e -> In r l)
    /\ (forall i r' rows',
          NoDup (map Reminder.id rows) ->
          reminderService.markCompleted rows i = (Ok r', rows') ->
          exists l',
            reminderService.getUpcoming h rows' u days now = Ok l'
            /\ forall x, In x l' -> Reminder.id x <> i).
Proof.
  intros He. eexists. split; [apply (getUpcoming_ok h rows u days now e He)|].
  pose proof (getUpcoming_ok h rows u days now e He) as Hl.
  split; [|split].
  - intros r Hin. now apply (getUpcoming_In h rows u days now e _ r He Hl).
  - intros r Hin Hu Hc [_ Hd].
    apply (getUpcoming_In h rows u days now e _ r He Hl). tauto.
  - intros i r' rows' Hnd Hm. eexists.
    split; [apply (getUpcoming_ok h rows' u days now e He)|].
    intros x Hin Hx.
    apply (getUpcoming_In h rows' u days now e _ x He
             (getUpcoming_ok h rows' u days now e He)) in Hin.
    destruct Hin as [Hin [_ [Hc _]]].
    rewrite (markCompleted_only_row rows rows' i r' x Hnd Hm Hin Hx) in Hc.
    discriminate.
Qed.

Lemma upcoming_characterised_witness :
  exists l,
    reminderService.getUpcoming JS.utcHost [Sample.stretch; Sample.checkup] "u1" 7 Sample.now
    = Ok l
    /\ (forall r, In r l ->
          In r [Sample.stretch; Sample.checkup] /\ Reminder.userId r = "u1"
          /\ Reminder.completed r = false
          /\ Reminder.dueDate r <= Sample.now + 7 * JS.msPerDay)
    /\ (forall r, In r [Sample.stretch; Sample.checkup] -> Reminder.userId r = "u1" ->
          Reminder.completed r = false ->
          Sample.now <= Reminder.dueDate r <= Sample.now + 7 * JS.msPerDay -> In r l)
    /\ (forall i r' rows',
          NoDup (map Reminder.id [Sample.stretch; Sample.checkup]) ->
          reminderService.markCompleted [Sample.stretch; Sample.checkup] i = (Ok r', rows') ->
          exists l',
            reminderService.getUpcoming JS.utcHost rows' "u1" 7 Sample.now = Ok l'
            /\ forall x, In x l' -> Reminder.id x <> i).
Proof.
  apply (upcoming_characterised JS.utcHost [Sample.stretch; Sample.checkup] "u1" 7
           Sample.now (Sample.now + 7 * JS.msPerDay)).
  reflexivity.
Defined.

(** C2, as stated, fails: the daily reminder with no end date is returned
    while it is pending; once one occurrence is marked completed it is no
    longer returned, although its rule is not exhausted. *)
Lemma upcoming_drops_completed_recurring :
  reminderService.getUpcoming JS.utcHost [Sample.stretch] "u1" 7 Sample.now
  = Ok [Sample.stretch]
  /\ Reminder.repeatType Sample.stretch = "daily"
  /\ Reminder.repeatUntil Sample.stretch = None
  /\ reminderService.getUpcoming JS.utcHost
       (snd (reminderService.markCompleted [Sample.stretch] "r1")) "u1" 7 Sample.now
     = Ok [].
Proof. repeat split. Qed.

(** C3 at the failing input: a reminder due thirty days before [now] and
    still open is returned by the seven-day query. *)
Theorem upcoming_returns_overdue :
  Reminder.dueDate Sample.overdue < Sample.now
  /\ reminderService.getUpcoming JS.utcHost [Sample.overdue; Sample.checkup] "u1" 7 Sample.now
     = Ok [Sample.overdue; Sample.checkup]
  /\ router.get_upcoming JS.utcHost [Sample.overdue; Sample.checkup] "u1" None Sample.now
     = answer 200 (Many [Sample.overdue; Sample.checkup]).
Proof. repeat split. Qed.

(** C6, as the code has it: the returned sequence is in ascending order of
    [dueDate]. *)
Theorem upcoming_sorted_by_dueDate (h : JS.Host) (rows : reminderService.table)
    (u : string) (days now : Z) (l : list Reminder.t) :
  reminderService.getUpcoming h rows u days now = Ok l ->
  StronglySorted (fun a b => Reminder.dueDate a <= Reminder.dueDate b) l.
Proof.
  unfold reminderService.getUpcoming.
  destruct (reminderService.endDate h now days); [|discriminate].
  intros H. injection H as <-. apply orderByAsc_sorted.
Qed.

Lemma upcoming_sorted_by_dueDate_witness :
  StronglySorted (fun a b => Reminder.dueDate a <= Reminder.dueDate b)
    [Sample.stretch; Sample.checkup].
Proof.
  apply (upcoming_sorted_by_dueDate JS.utcHost [Sample.checkup; Sample.stretch] "u1" 7
           Sample.now [Sample.stretch; Sample.checkup]).
  reflexivity.
Defined.

(** C6, as stated, fails: three reminders due at the same instant come
    back in their row order b, a, c, which is neither ascending nor
    descending in the id. *)
Lemma upcoming_ties_not_by_id :
  map Reminder.id Sample.tied = ["b"; "a"; "c"]
  /\ map Reminder.dueDate Sample.tied
     = [Sample.now + Sample.day; Sample.now + Sample.day; Sample.now + Sample.day]
  /\ reminderService.getUpcoming JS.utcHost Sample.tied "u1" 7 Sample.now = Ok Sample.tied
  /\ String.ltb "a" "b" = true
  /\ String.ltb "a" "c" = true.
Proof. repeat split. Qed.

(* ====================================================================== *)
(** ** Date and time strings *)
(* ====================================================================== *)

Example newDate_examples :
  JS.newDate JS.utcHost "2024-01-05T10:30:00.000Z" = Some 1704450600000
  /\ JS.newDate JS.utcHost "2024-03-01" = Some Sample.now
  /\ JS.newDate JS.utcHost "1970-01-01" = Some 0
  /\ JS.newDate JS.utcHost "2023-02-29" = None
  /\ JS.newDate JS.utcHost "tomorrow" = None.
Proof. repeat split. Qed.

Ltac to_props :=
  rewrite ?andb_false_r, ?andb_true_r, ?orb_false_r, ?orb_false_l;
  apply Bool.eq_true_iff_eq;
  unfold JS.isDigit, JS.inRange, JS.isChar, Shape.two, Shape.val;
  rewrite ?orb_true_iff, ?andb_true_iff, ?Z.leb_le, ?Z.eqb_eq.

(** The date pattern accepts exactly the digit form [YYYY-MM-DD]. *)
Lemma test_dateRegex (s : string) :
  JS.test calendarEventService.dateRegex s = Shape.ymd s.
Proof.
  unfold JS.test, calendarEventService.dateRegex.
  do 11 (destruct s as [|? s]; simpl;
         rewrite ?andb_false_r, ?andb_true_r, <- ?andb_assoc; try reflexivity).
Qed.

(** The time pattern accepts the strict form and the single-digit-hour
    form, and nothing else. *)
Lemma test_timeRegex (s : string) :
  JS.test calendarEventService.timeRegex s
  = Shape.strictClock s || Shape.shortClock s.
Proof.
  unfold JS.test, calendarEventService.timeRegex, JS.Opt.
  destruct s as [|c1 s]; [reflexivity|].
  destruct s as [|c2 s]; [simpl; rewrite ?andb_false_r; reflexivity|].
  destruct s as [|c3 s]; [simpl; rewrite ?andb_false_r; reflexivity|].
  destruct s as [|c4 s]; [simpl; rewrite ?andb_false_r; reflexivity|].
  destruct s as [|c5 s].
  - simpl. to_props.
    generalize (JS.code c1) (JS.code c2) (JS.code c3) (JS.code c4).
    intros. lia.
  - destruct s as [|c6 s].
    + simpl. to_props.
      generalize (JS.code c1) (JS.code c2) (JS.code c3) (JS.code c4) (JS.code c5).
      intros. lia.
    + simpl. rewrite ?andb_false_r. reflexivity.
Qed.

Lemma truthy_false (s : string) : JS.truthy s = false <-> s = "".
Proof. destruct s; simpl; split; intros H; try reflexivity; discriminate. Qed.

Lemma truthy_true (s : string) : JS.truthy s = true <-> s <> "".
Proof.
  destruct s; simpl; split; intros H; try reflexivity; try discriminate.
  now contradiction H.
Qed.

(** C7, as the code has it: [_validateTime] returns its argument exactly
    when it is [HH:mm] or [H:mm] with the hour in 0-23 and the minute in
    00-59; it returns [null] exactly for the empty string; and it throws
    the format error for every other string. *)
Theorem validateTime_accepts (s : string) :
  (calendarEventService._validateTime s = Ok (Some s)
   <-> Shape.strictClock s = true \/ Shape.shortClock s = true)
  /\ (calendarEventService._validateTime s = Ok None <-> s = "")
  /\ (calendarEventService._validateTime s
      = Err (Thrown "Invalid time format. Use HH:mm (24-hour format)")
      <-> s <> "" /\ Shape.strictClock s = false /\ Shape.shortClock s = false).
Proof.
  unfold calendarEventService._validateTime. rewrite test_timeRegex.
  destruct s as [|c s].
  - simpl. repeat split; try discriminate; try tauto.
    intros [H | H]; discriminate.
  - change (JS.truthy (String c s)) with true. cbv [negb].
    destruct (Shape.strictClock (String c s) || Shape.shortClock (String c s)) eqn:E;
      cbv [negb].
    + apply orb_true_iff in E. repeat split; try discriminate; try tauto.
      intros [_ [H1 H2]]. destruct E as [E | E]; congruence.
    + apply orb_false_iff in E. destruct E as [E1 E2].
      repeat split; try discriminate; try tauto.
      intros [H | H]; congruence.
Qed.

(** C7, as stated, fails: the single-digit hour of ["9:30"] is not the
    strict form, and [_validateTime] returns the string. *)
Lemma validateTime_single_digit_hour :
  Shape.strictClock "9:30" = false
  /\ calendarEventService._validateTime "9:30" = Ok (Some "9:30")
  /\ calendarEventService._validateTime "" = Ok None.
Proof. repeat split. Qed.

Example validateTime_examples :
  calendarEventService._validateTime "09:30" = Ok (Some "09:30")
  /\ calendarEventService._validateTime "23:59" = Ok (Some "23:59")
  /\ isOk (calendarEventService._validateTime "24:00") = false
  /\ isOk (calendarEventService._validateTime "12:60") = false
  /\ isOk (calendarEventService._validateTime "12:3") = false
  /\ isOk (calendarEventService._validateTime "7pm") = false.
Proof. repeat split. Qed.

Lemma validated_date_rejects (h : JS.Host) (s : string) :
  s <> "" -> Shape.ymd s = false ->
  calendarEventService.validated (calendarEventService._validateDate h) (Some s)
  = Err (Thrown "Invalid date format. Use YYYY-MM-DD").
Proof.
  intros Hs Hy. apply truthy_true in Hs.
  unfold calendarEventService.validated, calendarEventService._validateDate.
  now rewrite Hs, test_dateRegex, Hy.
Qed.

Lemma validated_time_rejects (s : string) :
  s <> "" -> Shape.strictClock s = false -> Shape.shortClock s = false ->
  calendarEventService.validated calendarEventService._validateTime (Some s)
  = Err (Thrown "Invalid time format. Use HH:mm (24-hour format)").
Proof.
  intros Hs H1 H2. apply truthy_true in Hs.
  unfold calendarEventService.validated, calendarEventService._validateTime.
  now rewrite Hs, test_timeRegex, H1, H2.
Qed.

Lemma validated_date_throws (h : JS.Host) (x : option string) :
  (exists v, calendarEventService.validated (calendarEventService._validateDate h) x = Ok v)
  \/ (exists msg,
        calendarEventService.validated (calendarEventService._validateDate h) x
        = Err (Thrown msg)).
Proof.
  unfold calendarEventService.validated, calendarEventService._validateDate.
  destruct x as [s|]; [|left; now eexists].
  destruct (JS.truthy s); [|left; now eexists]. cbv [negb].
  destruct (JS.test calendarEventService.dateRegex s); cbv [negb].
  - destruct (JS.newDate h s); [left | right]; now eexists.
  - right. now eexists.
Qed.

(** C4, as the code has it: when a calendar event is created or updated
    with a non-empty [date] that is not of the digit form [YYYY-MM-DD], or
    a non-empty [time] that is neither [HH:mm] nor [H:mm] in range, the
    service throws and the table is left as it was. *)
Theorem calendar_rejects_malformed (h : JS.Host) (users : list User.t)
    (rows : calendarEventService.table) (newId eventId : string) (e : EventInput) :
  (exists s, ev_date e = Some s /\ s <> "" /\ Shape.ymd s = false)
  \/ (exists s, ev_time e = Some s /\ s <> ""
                /\ Shape.strictClock s = false /\ Shape.shortClock s = false) ->
  (exists msg, calendarEventService.create h users rows newId e = (Err (Thrown msg), rows))
  /\ (exists msg, calendarEventService.update h rows eventId e = (Err (Thrown msg), rows)).
Proof.
  intros [[s [Hd [Hs Hy]]] | [s [Ht [Hs [H1 H2]]]]].
  - unfold calendarEventService.create, calendarEventService.update,
      calendarEventService.checked.
    rewrite Hd, (validated_date_rejects h s Hs Hy). split; now eexists.
  - unfold calendarEventService.create, calendarEventService.update,
      calendarEventService.checked.
    rewrite Ht, (validated_time_rejects s Hs H1 H2). split.
    + destruct (validated_date_throws h (ev_date e)) as [[v ->] | [msg ->]];
        now eexists.
    + destruct (ev_date e) as [d|]; [|now eexists].
      destruct (validated_date_throws h (Some d)) as [[v ->] | [msg ->]];
        now eexists.
Qed.

Lemma calendar_rejects_malformed_witness :
  (exists msg,
     calendarEventService.create JS.utcHost Sample.users [] "e1"
       (Sample.event (Some "03/01/2024") (Some "18:00")) = (Err (Thrown msg), []))
  /\ (exists msg,
        calendarEventService.update JS.utcHost [] "e1"
          (Sample.event (Some "03/01/2024") (Some "18:00")) = (Err (Thrown msg), [])).
Proof.
  apply (calendar_rejects_malformed JS.utcHost Sample.users [] "e1" "e1"
           (Sample.event (Some "03/01/2024") (Some "18:00"))).
  left. exists "03/01/2024". repeat split. discriminate.
Defined.

(** C4, as stated, fails: a reminder is created (201) and updated (200)
    with a due date written as a full date-time string, which is not of
    the form [YYYY-MM-DD], and the parsed instant is stored; a calendar
    event is created with the time ["9:30"], which is not strict [HH:mm]. *)
Lemma non_strict_strings_stored :
  Shape.ymd "2024-01-05T10:30:00.000Z" = false
  /\ router.post JS.utcHost Sample.users [] "r1" (Some "u1") Sample.stamped
     = (answer 201 (One (Sample.reminder "r1" "Stretch" "daily" 1704450600000 false)),
        [Sample.reminder "r1" "Stretch" "daily" 1704450600000 false])
  /\ router.put JS.utcHost [Sample.stretch] "r1" Sample.stamped
     = (answer 200 (One (Sample.reminder "r1" "Stretch" "daily" 1704450600000 false)),
        [Sample.reminder "r1" "Stretch" "daily" 1704450600000 false])
  /\ Shape.strictClock "9:30" = false
  /\ isOk (fst (calendarEventService.create JS.utcHost Sample.users [] "e1"
                  (Sample.event (Some "2024-03-01") (Some "9:30")))) = true
  /\ map CalendarEvent.time
       (snd (calendarEventService.create JS.utcHost Sample.users [] "e1"
               (Sample.event (Some "2024-03-01") (Some "9:30"))))
     = [Some "9:30"].
Proof. repeat split. Qed.

(* ====================================================================== *)
(** ** More on the table operations *)
(* ====================================================================== *)

Section TableLookups.

Variable T : Type.
Variable key : T -> string.

Lemma findUnique_None (rows : list T) (i : string) :
  Prisma.findUnique key rows i = None <-> ~ In i (map key rows).
Proof.
  induction rows as [|x rest IH]; simpl; [tauto|].
  destruct (String.eqb (key x) i) eqn:E.
  - apply String.eqb_eq in E. split; [discriminate|]. intros H. contradiction H. now left.
  - apply String.eqb_neq in E. rewrite IH. tauto.
Qed.

Lemma findUnique_app (rows : list T) (r : T) (j : string) :
  Prisma.findUnique key (rows ++ [r]) j
  = match Prisma.findUnique key rows j with
    | Some x => Some x
    | None => if String.eqb (key r) j then Some r else None
    end.
Proof.
  induction rows as [|x rest IH]; simpl; [reflexivity|].
  destruct (String.eqb (key x) j); [reflexivity|exact IH].
Qed.

Lemma findUnique_removeRow_other (rows : list T) (i j : string) :
  j <> i ->
  Prisma.findUnique key (Prisma.removeRow key rows i) j = Prisma.findUnique key rows j.
Proof.
  intros Hne. induction rows as [|x rest IH]; simpl; [reflexivity|].
  destruct (String.eqb (key x) i) eqn:E; simpl.
  - apply String.eqb_eq in E.
    destruct (String.eqb (key x) j) eqn:F; [|reflexivity].
    apply String.eqb_eq in F. congruence.
  - now rewrite IH.
Qed.

Lemma findUnique_removeRow_same (rows : list T) (i : string) :
  NoDup (map key rows) ->
  Prisma.findUnique key (Prisma.removeRow key rows i) i = None.
Proof.
  induction rows as [|x rest IH]; simpl; [reflexivity|].
  intros Hnd. inversion Hnd as [|k ks Hnotin Hrest]; subst.
  destruct (String.eqb (key x) i) eqn:E; simpl.
  - apply String.eqb_eq in E. subst i. now apply findUnique_None.
  - rewrite E. now apply IH.
Qed.

Lemma removeRow_length (rows : list T) (i : string) (r : T) :
  Prisma.findUnique key rows i = Some r ->
  List.length rows = S (List.length (Prisma.removeRow key rows i)).
Proof.
  induction rows as [|x rest IH]; simpl; [discriminate|].
  destruct (String.eqb (key x) i); [reflexivity|].
  intros H. simpl. now rewrite (IH H).
Qed.

Lemma removeRow_app_fresh (rows : list T) (r : T) :
  Prisma.findUnique key rows (key r) = None ->
  Prisma.removeRow key (rows ++ [r]) (key r) = rows.
Proof.
  induction rows as [|x rest IH]; simpl.
  - now rewrite String.eqb_refl.
  - destruct (String.eqb (key x) (key r)); [discriminate|].
    intros H. now rewrite (IH H).
Qed.

Lemma map_key_replaceRow (rows : list T) (i : string) (r' : T) :
  key r' = i -> map key (Prisma.replaceRow key rows i r') = map key rows.
Proof.
  intros Hk. induction rows as [|x rest IH]; simpl; [reflexivity|].
  destruct (String.eqb (key x) i) eqn:E; simpl.
  - apply String.eqb_eq in E. congruence.
  - now rewrite IH.
Qed.

Lemma findUnique_replaceRow_other (rows : list T) (i j : string) (r' : T) :
  key r' = i -> j <> i ->
  Prisma.findUnique key (Prisma.replaceRow key rows i r') j
  = Prisma.findUnique key rows j.
Proof.
  intros Hk Hne. induction rows as [|x rest IH]; simpl; [reflexivity|].
  destruct (String.eqb (key x) i) eqn:E; simpl.
  - apply String.eqb_eq in E.
    assert (F1 : String.eqb (key r') j = false) by (apply String.eqb_neq; congruence).
    assert (F2 : String.eqb (key x) j = false) by (apply String.eqb_neq; congruence).
    now rewrite F1, F2.
  - now rewrite IH.
Qed.

Lemma insertBy_head (k : T -> Z) (x : T) (l : list T) :
  Forall (fun y => k x <= k y) l -> Prisma.insertBy k x l = x :: l.
Proof.
  intros H. destruct l as [|y l]; [reflexivity|]. simpl.
  inversion H as [|? ? Hy _]; subst. apply Z.leb_le in Hy. now rewrite Hy.
Qed.

Lemma filter_insertBy (k : T -> Z) (p : T -> bool) (x : T) (l : list T) :
  StronglySorted (fun a b => k a <= k b) l ->
  filter p (Prisma.insertBy k x l)
  = if p x then Prisma.insertBy k x (filter p l) else filter p l.
Proof.
  induction 1 as [|y l Hs IH Hall]; simpl.
  - destruct (p x); reflexivity.
  - destruct (k x <=? k y) eqn:E; simpl.
    + apply Z.leb_le in E. destruct (p x) eqn:Px; [|reflexivity].
      destruct (p y) eqn:Py.
      * simpl. apply Z.leb_le in E. now rewrite E.
      * symmetry. apply insertBy_head.
        apply Forall_forall. intros z Hz. apply filter_In in Hz as [Hz _].
        rewrite Forall_forall in Hall. specialize (Hall z Hz). lia.
    + rewrite IH. destruct (p y) eqn:Py; destruct (p x) eqn:Px; simpl;
        try rewrite E; reflexivity.
Qed.

Lemma filter_orderByAsc (k : T -> Z) (p : T -> bool) (l : list T) :
  filter p (Prisma.orderByAsc k l) = Prisma.orderByAsc k (filter p l).
Proof.
  induction l as [|x l IH]; simpl; [reflexivity|].
  rewrite filter_insertBy by apply orderByAsc_sorted.
  rewrite IH. destruct (p x); reflexivity.
Qed.

Lemma filter_filter (p q : T -> bool) (l : list T) :
  filter q (filter p l) = filter (fun r => p r && q r) l.
Proof.
  induction l as [|x l IH]; simpl; [reflexivity|].
  destruct (p x); simpl; [|exact IH].
  destruct (q x); now rewrite IH.
Qed.

End TableLookups.

Arguments findUnique_None {T} key rows i.
Arguments findUnique_app {T} key rows r j.
Arguments findUnique_removeRow_other {T} key rows i j _.
Arguments findUnique_removeRow_same {T} key rows i _.
Arguments removeRow_length {T} key rows i r _.
Arguments removeRow_app_fresh {T} key rows r _.
Arguments map_key_replaceRow {T} key rows i r' _.
Arguments findUnique_replaceRow_other {T} key rows i j r' _ _.
Arguments filter_orderByAsc {T} k p l.
Arguments filter_filter {T} p q l.

(* ====================================================================== *)
(** ** Listing, creating and deleting reminders *)
(* ====================================================================== *)

Lemma getByUser_In (rows : reminderService.table) (u : string)
    (includeCompleted : bool) (r : Reminder.t) :
  In r (reminderService.getByUser rows u includeCompleted)
  <-> In r rows /\ Reminder.userId r = u
      /\ (includeCompleted = false -> Reminder.completed r = false).
Proof.
  unfold reminderService.getByUser.
  rewrite findMany_In, andb_true_iff, String.eqb_eq.
  destruct includeCompleted.
  - split; [intros [H1 [H2 _]] | intros [H1 [H2 _]]]; repeat split; auto.
    discriminate.
  - rewrite negb_true_iff. split; [intros [H1 [H2 H3]] | intros [H1 [H2 H3]]];
      repeat split; auto.
Qed.

(** X1: [getByUser] returns, in ascending order of [dueDate], exactly the
    stored reminders of the user, without the completed ones unless
    [includeCompleted] is set. *)
Theorem getByUser_characterised (rows : reminderService.table) (u : string)
    (includeCompleted : bool) :
  StronglySorted (fun a b => Reminder.dueDate a <= Reminder.dueDate b)
    (reminderService.getByUser rows u includeCompleted)
  /\ forall r,
       In r (reminderService.getByUser rows u includeCompleted)
       <-> In r rows /\ Reminder.userId r = u
           /\ (includeCompleted = false -> Reminder.completed r = false).
Proof.
  split.
  - unfold reminderService.getByUser. apply orderByAsc_sorted.
  - intros r. apply getByUser_In.
Qed.

(** X2: unless the [includeCompleted] parameter is the exact text [true],
    GET /user/:userId answers 200 with exactly the user's reminders that
    are not completed. *)
Theorem get_user_hides_completed (rows : reminderService.table)
    (u : string) (q : option string) :
  q <> Some "true" ->
  exists l,
    router.get_user rows u q = answer 200 (Many l)
    /\ forall r, In r l <->
                 In r rows /\ Reminder.userId r = u /\ Reminder.completed r = false.
Proof.
  intros Hq. unfold router.get_user.
  assert (Hflag : match q with Some s => String.eqb s "true" | None => false end = false).
  { destruct q as [s|]; [|reflexivity].
    destruct (String.eqb s "true") eqn:E; [|reflexivity].
    apply String.eqb_eq in E. subst. now contradiction Hq. }
  rewrite Hflag. eexists. split; [reflexivity|].
  intros r. rewrite (getByUser_In rows u false r).
  intuition.
Qed.

Lemma get_user_hides_completed_witness :
  exists l,
    router.get_user Fixture.reminders "u1" (Some "TRUE") = answer 200 (Many l)
    /\ forall r, In r l <->
                 In r Fixture.reminders /\ Reminder.userId r = "u1"
                 /\ Reminder.completed r = false.
Proof.
  apply (get_user_hides_completed Fixture.reminders "u1" (Some "TRUE")).
  discriminate.
Defined.

(** X3: with a valid horizon end [e], the upcoming query returns the
    reminders of the default listing of [getByUser] that are due at or
    before [e], each as many times as the listing has it. *)
Theorem upcoming_is_listing_cut (h : JS.Host) (rows : reminderService.table)
    (u : string) (days now e : Z) :
  reminderService.endDate h now days = Some e ->
  exists l,
    reminderService.getUpcoming h rows u days now = Ok l
    /\ Permutation l
         (filter (fun r => Reminder.dueDate r <=? e)
            (reminderService.getByUser rows u false)).
Proof.
  intros He. rewrite (getUpcoming_ok h rows u days now e He).
  eexists. split; [reflexivity|].
  unfold reminderService.getByUser, Prisma.findMany.
  rewrite filter_orderByAsc, filter_filter. reflexivity.
Qed.

Lemma upcoming_is_listing_cut_witness :
  exists l,
    reminderService.getUpcoming JS.utcHost Fixture.reminders "u1" 2 Sample.now = Ok l
    /\ Permutation l
         (filter (fun r => Reminder.dueDate r <=? Sample.now + 2 * JS.msPerDay)
            (reminderService.getByUser Fixture.reminders "u1" false)).
Proof.
  apply (upcoming_is_listing_cut JS.utcHost Fixture.reminders "u1" 2 Sample.now
           (Sample.now + 2 * JS.msPerDay)).
  reflexivity.
Defined.

(** X4: POST / with [userId], [title] or [dueDate] missing or empty is
    answered 400 and writes nothing. *)
Theorem post_requires_fields (h : JS.Host) (users : list User.t)
    (rows : reminderService.table) (newId : string) (userId : option string)
    (body : ReminderInput) :
  present userId = false \/ present (in_title body) = false
  \/ present (in_dueDate body) = false ->
  router.post h users rows newId userId body
  = (failure 400 (Some false) "userId, title, and dueDate are required", rows).
Proof.
  intros H. unfold router.post.
  destruct (present userId), (present (in_title body)), (present (in_dueDate body));
    try reflexivity.
  destruct H as [H | [H | H]]; discriminate.
Qed.

Lemma post_requires_fields_witness :
  router.post JS.utcHost Sample.users [Sample.stretch] "r9" (Some "u1") (Sample.rename "")
  = (failure 400 (Some false) "userId, title, and dueDate are required",
     [Sample.stretch]).
Proof.
  apply (post_requires_fields JS.utcHost Sample.users [Sample.stretch] "r9" (Some "u1")
           (Sample.rename "")).
  right. left. reflexivity.
Defined.

(** X5: POST / either leaves the table as it was and does not answer 201,
    or answers 201 with a new row appended to the table: the row has the
    generated id, is not completed, and carries the user, the title and
    the parsed due date of the request. *)
Theorem post_outcome (h : JS.Host) (users : list User.t)
    (rows : reminderService.table) (newId : string) (userId : option string)
    (body : ReminderInput) :
  (snd (router.post h users rows newId userId body) = rows
   /\ status (fst (router.post h users rows newId userId body)) <> 201)
  \/ exists r,
       router.post h users rows newId userId body
       = (answer 201 (One r), (rows ++ [r])%list)
       /\ Reminder.id r = newId
       /\ Reminder.completed r = false
       /\ userId = Some (Reminder.userId r)
       /\ in_title body = Some (Reminder.title r)
       /\ exists s, in_dueDate body = Some s
                    /\ JS.newDate h s = Some (Reminder.dueDate r).
Proof.
  unfold router.post.
  destruct (negb (present userId) || negb (present (in_title body))
            || negb (present (in_dueDate body))).
  { left. split; [reflexivity | discriminate]. }
  unfold reminderService.create.
  destruct userId as [u|]; [|left; split; [reflexivity | discriminate]].
  destruct (in_title body) as [ttl|] eqn:Et;
    [|left; split; [reflexivity | discriminate]].
  destruct (in_dueDate body) as [s|] eqn:Ed;
    [|left; split; [reflexivity | discriminate]].
  destruct (JS.newDate h s) as [t|] eqn:En;
    [|left; split; [reflexivity | discriminate]].
  destruct (invalidArg (dateOr h (in_repeatUntil body) Null)).
  { left. split; [reflexivity | discriminate]. }
  destruct (userExists users u); cbv [negb];
    [|left; split; [reflexivity | discriminate]].
  right. eexists. split; [reflexivity|]. simpl.
  repeat split. exists s. split; [reflexivity | exact En].
Qed.

Lemma post_created (h : JS.Host) (users : list User.t) (rows : reminderService.table)
    (newId : string) (userId : option string) (body : ReminderInput)
    (r : Reminder.t) (rows' : reminderService.table) :
  router.post h users rows newId userId body = (answer 201 (One r), rows') ->
  rows' = (rows ++ [r])%list /\ Reminder.id r = newId /\ Reminder.completed r = false.
Proof.
  unfold router.post.
  destruct (negb (present userId) || negb (present (in_title body))
            || negb (present (in_dueDate body))); [discriminate|].
  unfold reminderService.create.
  destruct userId as [u|]; [|discriminate].
  destruct (in_title body) as [ttl|]; [|discriminate].
  destruct (in_dueDate body) as [s|]; [|discriminate].
  destruct (JS.newDate h s) as [t|]; [|discriminate].
  destruct (invalidArg _); [discriminate|].
  destruct (userExists users u); cbv [negb]; [|discriminate].
  unfold Prisma.create. intros H. injection H as <- <-. now repeat split.
Qed.

(** X6: when the generated id is new to the table, a reminder created by
    POST / is found under that id and listed for its user, and DELETE of
    that id answers 200 and brings the table back to what it was. *)
Theorem post_then_lookup_and_delete (h : JS.Host) (users : list User.t)
    (rows : reminderService.table) (newId : string) (userId : option string)
    (body : ReminderInput) (r : Reminder.t) (rows' : reminderService.table) :
  Prisma.findUnique Reminder.id rows newId = None ->
  router.post h users rows newId userId body = (answer 201 (One r), rows') ->
  Prisma.findUnique Reminder.id rows' newId = Some r
  /\ In r (reminderService.getByUser rows' (Reminder.userId r) false)
  /\ snd (router.delete rows' newId) = rows
  /\ status (fst (router.delete rows' newId)) = 200.
Proof.
  intros Hfresh Hpost.
  destruct (post_created h users rows newId userId body r rows' Hpost)
    as [-> [Hid Hc]].
  assert (Hfind : Prisma.findUnique Reminder.id (rows ++ [r]) newId = Some r).
  { rewrite findUnique_app, Hfresh, Hid, String.eqb_refl. reflexivity. }
  split; [exact Hfind|]. split.
  - apply (getByUser_In _ _ false). repeat split.
    + apply in_or_app. right. now left.
    + intros _. exact Hc.
  - unfold router.delete, reminderService.delete, Prisma.delete.
    rewrite Hfind. simpl. split; [|reflexivity].
    rewrite <- Hid. apply removeRow_app_fresh. now rewrite Hid.
Qed.

Lemma post_then_lookup_and_delete_witness :
  Prisma.findUnique Reminder.id
    [Sample.checkup; Sample.reminder "r7" "Stretch" "daily" 1704450600000 false] "r7"
  = Some (Sample.reminder "r7" "Stretch" "daily" 1704450600000 false)
  /\ In (Sample.reminder "r7" "Stretch" "daily" 1704450600000 false)
       (reminderService.getByUser
          [Sample.checkup; Sample.reminder "r7" "Stretch" "daily" 1704450600000 false]
          (Reminder.userId (Sample.reminder "r7" "Stretch" "daily" 1704450600000 false))
          false)
  /\ snd (router.delete
            [Sample.checkup; Sample.reminder "r7" "Stretch" "daily" 1704450600000 false]
            "r7") = [Sample.checkup]
  /\ status (fst (router.delete
                    [Sample.checkup;
                     Sample.reminder "r7" "Stretch" "daily" 1704450600000 false]
                    "r7")) = 200.
Proof.
  apply (post_then_lookup_and_delete JS.utcHost Sample.users [Sample.checkup] "r7"
           (Some "u1")
           Sample.stamped); reflexivity.
Defined.

(** X7: in a table with distinct ids, DELETE of a stored id answers 200,
    removes exactly one row, leaves no row under that id and every other
    id as it was; the same DELETE again is answered 500. *)
Theorem delete_removes_one (rows : reminderService.table) (i : string)
    (r : Reminder.t) :
  NoDup (map Reminder.id rows) ->
  Prisma.findUnique Reminder.id rows i = Some r ->
  exists rows',
    router.delete rows i
    = ({| status := 200; success := Some true; data := NoData; error := None;
          message := Some "Reminder deleted successfully" |}, rows')
    /\ Prisma.findUnique Reminder.id rows' i = None
    /\ (forall j, j <> i ->
          Prisma.findUnique Reminder.id rows' j = Prisma.findUnique Reminder.id rows j)
    /\ List.length rows = S (List.length rows')
    /\ router.delete rows' i = (failure 500 None "Failed to delete reminder", rows').
Proof.
  intros Hnd Hf. exists (Prisma.removeRow Reminder.id rows i).
  assert (Hgone : Prisma.findUnique Reminder.id (Prisma.removeRow Reminder.id rows i) i
                  = None) by now apply findUnique_removeRow_same.
  split.
  - unfold router.delete, reminderService.delete, Prisma.delete. now rewrite Hf.
  - split; [exact Hgone|]. split.
    + intros j Hj. now apply findUnique_removeRow_other.
    + split; [now apply (removeRow_length Reminder.id rows i r)|].
      unfold router.delete, reminderService.delete, Prisma.delete. now rewrite Hgone.
Qed.

Lemma delete_removes_one_witness :
  exists rows',
    router.delete Fixture.reminders "r4"
    = ({| status := 200; success := Some true; data := NoData; error := None;
          message := Some "Reminder deleted successfully" |}, rows')
    /\ Prisma.findUnique Reminder.id rows' "r4" = None
    /\ (forall j, j <> "r4" ->
          Prisma.findUnique Reminder.id rows' j
          = Prisma.findUnique Reminder.id Fixture.reminders j)
    /\ List.length Fixture.reminders = S (List.length rows')
    /\ router.delete rows' "r4" = (failure 500 None "Failed to delete reminder", rows').
Proof.
  apply (delete_removes_one Fixture.reminders "r4" Fixture.paid).
  - simpl. repeat constructor; simpl; intuition discriminate.
  - reflexivity.
Defined.

(* ====================================================================== *)
(** ** What an update keeps *)
(* ====================================================================== *)

Lemma update_rows (h : JS.Host) (rows : reminderService.table) (i : string)
    (x : ReminderInput) :
  snd (reminderService.update h rows i x) = rows
  \/ exists r d,
       Prisma.findUnique Reminder.id rows i = Some r
       /\ d_completed d = None
       /\ snd (reminderService.update h rows i x)
          = Prisma.replaceRow Reminder.id rows i (applyData d r).
Proof.
  unfold reminderService.update.
  destruct (invalidArg _ || invalidArg _); [now left|].
  unfold Prisma.update.
  destruct (Prisma.findUnique Reminder.id rows i) as [r|] eqn:E; [|now left].
  right. eexists. eexists. split; [reflexivity|]. split; cycle 1.
  - reflexivity.
  - reflexivity.
Qed.

Lemma applyData_id (d : ReminderData) (r : Reminder.t) :
  Reminder.id (applyData d r) = Reminder.id r.
Proof. reflexivity. Qed.

Lemma put_snd (h : JS.Host) (rows : reminderService.table) (i : string)
    (body : ReminderInput) :
  snd (router.put h rows i body) = snd (reminderService.update h rows i body).
Proof.
  unfold router.put.
  destruct (reminderService.update h rows i body) as [[r|e] rows']; reflexivity.
Qed.

Lemma patch_snd (rows : reminderService.table) (i : string) :
  snd (router.patch_complete rows i) = snd (reminderService.markCompleted rows i).
Proof.
  unfold router.patch_complete.
  destruct (reminderService.markCompleted rows i) as [[r|e] rows']; reflexivity.
Qed.

(** X8: PUT /:id and PATCH /:id/complete never add, remove or re-key a
    row: the sequence of ids in the table is the same afterwards, and the
    row stored under any other id is untouched. *)
Theorem put_patch_keep_other_rows (h : JS.Host) (rows : reminderService.table)
    (i : string) (body : ReminderInput) :
  map Reminder.id (snd (router.put h rows i body)) = map Reminder.id rows
  /\ map Reminder.id (snd (router.patch_complete rows i)) = map Reminder.id rows
  /\ forall j, j <> i ->
       Prisma.findUnique Reminder.id (snd (router.put h rows i body)) j
       = Prisma.findUnique Reminder.id rows j
       /\ Prisma.findUnique Reminder.id (snd (router.patch_complete rows i)) j
          = Prisma.findUnique Reminder.id rows j.
Proof.
  rewrite put_snd, patch_snd.
  assert (Hput : snd (reminderService.update h rows i body) = rows
                 \/ exists r', Reminder.id r' = i
                      /\ snd (reminderService.update h rows i body)
                         = Prisma.replaceRow Reminder.id rows i r').
  { destruct (update_rows h rows i body) as [H | [r [d [Hf [_ H]]]]]; [now left|].
    right. exists (applyData d r). split; [|exact H].
    rewrite applyData_id. now apply (findUnique_key Reminder.id rows). }
  assert (Hpatch : snd (reminderService.markCompleted rows i) = rows
                   \/ exists r', Reminder.id r' = i
                        /\ snd (reminderService.markCompleted rows i)
                           = Prisma.replaceRow Reminder.id rows i r').
  { destruct (Prisma.findUnique Reminder.id rows i) as [r|] eqn:E.
    - right. rewrite (markCompleted_found rows i r E). eexists. split; [|reflexivity].
      rewrite applyData_id. now apply (findUnique_key Reminder.id rows).
    - left. now rewrite (markCompleted_missing rows i E). }
  repeat split.
  - destruct Hput as [-> | [r' [Hk ->]]]; [reflexivity|].
    now apply map_key_replaceRow.
  - destruct Hpatch as [-> | [r' [Hk ->]]]; [reflexivity|].
    now apply map_key_replaceRow.
  - destruct Hput as [-> | [r' [Hk ->]]]; [reflexivity|].
    now apply findUnique_replaceRow_other.
  - destruct Hpatch as [-> | [r' [Hk ->]]]; [reflexivity|].
    now apply findUnique_replaceRow_other.
Qed.

(** X9: a PUT whose [dueDate] or [repeatUntil] is a non-empty string that
    the Date constructor cannot read is answered 500 and writes nothing,
    not even the other fields of the body. *)
Theorem put_unreadable_date (h : JS.Host) (rows : reminderService.table)
    (i : string) (body : ReminderInput) (s : string) :
  (in_dueDate body = Some s \/ in_repeatUntil body = Some s) ->
  s <> "" -> JS.newDate h s = None ->
  router.put h rows i body = (failure 500 None "Failed to update reminder", rows).
Proof.
  intros Hs Hne Hd. apply truthy_true in Hne.
  unfold router.put, reminderService.update.
  assert (Hinv : invalidArg (dateOr h (in_dueDate body) Undefined)
                 || invalidArg (dateOr h (in_repeatUntil body) Undefined) = true).
  { apply orb_true_iff. destruct Hs as [Hs | Hs]; [left | right];
      rewrite Hs; unfold dateOr; now rewrite Hne, Hd. }
  now rewrite Hinv.
Qed.

Lemma put_unreadable_date_witness :
  router.put JS.utcHost [Sample.stretch] "r1" Fixture.vague
  = (failure 500 None "Failed to update reminder", [Sample.stretch]).
Proof.
  apply (put_unreadable_date JS.utcHost [Sample.stretch] "r1" Fixture.vague "tomorrow").
  - left. reflexivity.
  - discriminate.
  - reflexivity.
Defined.

(** X10: whatever the body, PUT /:id leaves the id, the owner and the
    [completed] flag of the stored reminder as they were, and never turns
    a set [repeatUntil] into null. *)
Theorem put_keeps_identity (h : JS.Host) (rows : reminderService.table)
    (i : string) (body : ReminderInput) (r : Reminder.t) :
  Prisma.findUnique Reminder.id rows i = Some r ->
  exists r',
    Prisma.findUnique Reminder.id (snd (router.put h rows i body)) i = Some r'
    /\ Reminder.id r' = Reminder.id r
    /\ Reminder.userId r' = Reminder.userId r
    /\ Reminder.completed r' = Reminder.completed r
    /\ (Reminder.repeatUntil r <> None -> Reminder.repeatUntil r' <> None).
Proof.
  intros Hf. rewrite put_snd.
  destruct (update_rows h rows i body) as [-> | [r0 [d [Hf0 [Hc ->]]]]].
  - exists r. repeat split; auto.
  - rewrite Hf in Hf0. injection Hf0 as <-.
    exists (applyData d r). split.
    + apply (findUnique_replaceRow Reminder.id rows i r); [exact Hf|].
      rewrite applyData_id. now apply (findUnique_key Reminder.id rows).
    + simpl. rewrite Hc. simpl. repeat split.
      destruct (d_repeatUntil d); [discriminate | auto].
Qed.

Lemma put_keeps_identity_witness :
  exists r',
    Prisma.findUnique Reminder.id
      (snd (router.put JS.utcHost Fixture.reminders "r4" Sample.stamped)) "r4" = Some r'
    /\ Reminder.id r' = Reminder.id Fixture.paid
    /\ Reminder.userId r' = Reminder.userId Fixture.paid
    /\ Reminder.completed r' = Reminder.completed Fixture.paid
    /\ (Reminder.repeatUntil Fixture.paid <> None -> Reminder.repeatUntil r' <> None).
Proof.
  apply (put_keeps_identity JS.utcHost Fixture.reminders "r4" Sample.stamped Fixture.paid).
  reflexivity.
Defined.

(* ====================================================================== *)
(** ** Calendar events *)
(* ====================================================================== *)

Lemma validateDate_some (h : JS.Host) (s : string) (t : Z) :
  calendarEventService._validateDate h s = Ok (Some t) ->
  Shape.ymd s = true /\ JS.newDate h s = Some t.
Proof.
  unfold calendarEventService._validateDate.
  destruct (JS.truthy s); cbv [negb]; [|discriminate].
  rewrite test_dateRegex. destruct (Shape.ymd s); cbv [negb]; [|discriminate].
  destruct (JS.newDate h s) as [t0|]; [|discriminate].
  intros H. injection H as <-. now split.
Qed.

Lemma validateDate_none (h : JS.Host) (s : string) :
  calendarEventService._validateDate h s = Ok None -> s = "".
Proof.
  unfold calendarEventService._validateDate.
  destruct (JS.truthy s) eqn:Et; cbv [negb]; [|intros _; now apply truthy_false].
  destruct (JS.test calendarEventService.dateRegex s); cbv [negb]; [|discriminate].
  destruct (JS.newDate h s); discriminate.
Qed.

(** X11: [_validateDate] returns a date only for a string of the digit
    form [YYYY-MM-DD] that the Date constructor reads, and the date is the
    one it reads; it returns [null] only for the empty string. *)
Theorem validateDate_sound (h : JS.Host) (s : string) (v : option Z) :
  calendarEventService._validateDate h s = Ok v ->
  match v with
  | Some t => Shape.ymd s = true /\ JS.newDate h s = Some t
  | None => s = ""
  end.
Proof.
  destruct v as [t|].
  - apply validateDate_some.
  - apply validateDate_none.
Qed.

Lemma validateDate_sound_witness :
  Shape.ymd "2024-03-01" = true
  /\ JS.newDate JS.utcHost "2024-03-01" = Some Sample.now.
Proof.
  apply (validateDate_sound JS.utcHost "2024-03-01" (Some Sample.now)).
  reflexivity.
Defined.

Lemma digitVal_digit (c : ascii) :
  JS.isDigit c = true ->
  JS.digitVal 10 c = Some (JS.code c - 48) /\ 0 <= JS.code c - 48 <= 9.
Proof.
  unfold JS.isDigit, JS.digitVal. intros H. rewrite H.
  unfold JS.inRange in H. apply andb_prop in H as [H1 H2].
  apply Z.leb_le in H1. apply Z.leb_le in H2.
  assert (E : (JS.code c - 48 <? 10) = true) by (apply Z.ltb_lt; lia).
  rewrite E. split; [reflexivity | lia].
Qed.

Lemma daysInMonth_bounds (y m : Z) : 28 <= JS.daysInMonth y m <= 31.
Proof.
  unfold JS.daysInMonth.
  destruct (m =? 2); [destruct (JS.isLeap y); lia|].
  destruct ((m =? 4) || (m =? 6) || (m =? 9) || (m =? 11)); lia.
Qed.

Lemma daysBefore_bounds (y : Z) (n : nat) :
  0 <= JS.daysBefore y n <= 31 * Z.of_nat n.
Proof.
  induction n as [|n IH]; [simpl; lia|].
  change (JS.daysBefore y (S n))
    with (JS.daysBefore y n + JS.daysInMonth y (Z.of_nat (S n))).
  pose proof (daysInMonth_bounds y (Z.of_nat (S n))). lia.
Qed.

Lemma civil_in_range (y m d day : Z) :
  0 <= y <= 9999 -> JS.civil y m d = Some day ->
  JS.TimeClip (JS.MakeDate day 0) = Some (JS.MakeDate day 0).
Proof.
  intros Hy. unfold JS.civil.
  destruct ((1 <=? m) && (m <=? 12) && (1 <=? d) && (d <=? JS.daysInMonth y m)) eqn:E;
    [|discriminate].
  intros H. injection H as <-.
  repeat (apply andb_prop in E as [E ?]).
  apply Z.leb_le in E. apply Z.leb_le in H. apply Z.leb_le in H0. apply Z.leb_le in H1.
  pose proof (daysInMonth_bounds y m).
  pose proof (daysBefore_bounds y (Z.to_nat (m - 1))).
  unfold JS.TimeClip, JS.MakeDate, JS.MakeDay, JS.DayFromYear, JS.msPerDay, JS.maxTime.
  match goal with |- (if ?b then _ else _) = _ => assert (Hb : b = true) end.
  { apply Z.leb_le. rewrite Z2Nat.id in * by lia.
    generalize dependent (JS.daysBefore y (Z.to_nat (m - 1))).
    generalize dependent (JS.daysInMonth y m). intros dim ? ? db ?.
    assert (-493 <= (y - 1969) / 4 <= 2008) by (split; [apply Z.div_le_lower_bound | apply Z.div_le_upper_bound]; lia).
    assert (-20 <= (y - 1901) / 100 <= 81) by (split; [apply Z.div_le_lower_bound | apply Z.div_le_upper_bound]; lia).
    assert (-5 <= (y - 1601) / 400 <= 21) by (split; [apply Z.div_le_lower_bound | apply Z.div_le_upper_bound]; lia).
    apply Z.abs_le. lia. }
  now rewrite Hb.
Qed.

Lemma digits_four (a b c d : ascii) :
  JS.isDigit a = true -> JS.isDigit b = true ->
  JS.isDigit c = true -> JS.isDigit d = true ->
  exists v,
    JS.digits 10 (String a (String b (String c (String d EmptyString)))) None = Some v
    /\ 0 <= v <= 9999.
Proof.
  intros Ha Hb Hc Hd.
  destruct (digitVal_digit a Ha) as [Ea Ba].
  destruct (digitVal_digit b Hb) as [Eb Bb].
  destruct (digitVal_digit c Hc) as [Ec Bc].
  destruct (digitVal_digit d Hd) as [Ed Bd].
  cbn [JS.digits]. rewrite Ea. cbn [JS.digits]. rewrite Eb.
  cbn [JS.digits]. rewrite Ec. cbn [JS.digits]. rewrite Ed.
  eexists. split; [reflexivity|]. lia.
Qed.

Lemma ymd_year_range (s : string) :
  Shape.ymd s = true -> 0 <= JS.numAt s 0 4 <= 9999.
Proof.
  intros H.
  do 10 (destruct s as [|? s]; [discriminate H|]).
  destruct s; [|discriminate H]. cbn [Shape.ymd] in H.
  do 9 (apply andb_prop in H as [H ?]).
  unfold JS.numAt. cbn [substring].
  destruct (digits_four a a0 a1 a2) as [v [-> Hv]]; assumption.
Qed.

(** X12: a string of the form [YYYY-MM-DD] that names a real day of the
    calendar (month 01-12, day within the month) is accepted by
    [_validateDate] on every host, as midnight UTC of that day. *)
Theorem validateDate_real_day (h : JS.Host) (s : string) (day : Z) :
  Shape.ymd s = true ->
  JS.civil (JS.numAt s 0 4) (JS.numAt s 5 2) (JS.numAt s 8 2) = Some day ->
  calendarEventService._validateDate h s = Ok (Some (day * JS.msPerDay)).
Proof.
  intros Hy Hc.
  assert (Ht : JS.truthy s = true) by (destruct s; [discriminate Hy | reflexivity]).
  unfold calendarEventService._validateDate.
  rewrite Ht, test_dateRegex, Hy. cbv [negb].
  unfold JS.newDate, JS.isoParse.
  change (JS.test JS.isoDate s) with (JS.test calendarEventService.dateRegex s).
  rewrite test_dateRegex, Hy, Hc. cbn [option_map].
  rewrite (civil_in_range _ _ _ day (ymd_year_range s Hy) Hc).
  unfold JS.MakeDate. now rewrite Z.add_0_r.
Qed.

Lemma validateDate_real_day_witness :
  calendarEventService._validateDate JS.utcHost "2024-02-29"
  = Ok (Some (19782 * JS.msPerDay)).
Proof.
  apply (validateDate_real_day JS.utcHost "2024-02-29" 19782); reflexivity.
Defined.

Lemma validated_date_ok (h : JS.Host) (x : option string) (v : option Z) :
  calendarEventService.validated (calendarEventService._validateDate h) x = Ok v ->
  match v with
  | Some t => exists s, x = Some s /\ Shape.ymd s = true /\ JS.newDate h s = Some t
  | None => x = None \/ x = Some ""
  end.
Proof.
  unfold calendarEventService.validated.
  destruct x as [s|]; [|intros H; injection H as <-; now left].
  destruct (JS.truthy s) eqn:Et.
  - intros H. destruct v as [t|].
    + exists s. pose proof (validateDate_some h s t H). tauto.
    + right. now rewrite (validateDate_none h s H).
  - intros H. injection H as <-. right. apply truthy_false in Et. now subst.
Qed.

Lemma validated_time_ok (x : option string) (v : option string) :
  calendarEventService.validated calendarEventService._validateTime x = Ok v ->
  match v with
  | Some t => x = Some t /\ (Shape.strictClock t = true \/ Shape.shortClock t = true)
  | None => x = None \/ x = Some ""
  end.
Proof.
  unfold calendarEventService.validated.
  destruct x as [s|]; [|intros H; injection H as <-; now left].
  destruct (JS.truthy s) eqn:Et.
  - unfold calendarEventService._validateTime. rewrite Et, test_timeRegex. cbv [negb].
    destruct (Shape.strictClock s || Shape.shortClock s) eqn:E; cbv [negb];
      [|discriminate].
    intros H. injection H as <-. split; [reflexivity|]. now apply orb_true_iff.
  - intros H. injection H as <-. right. apply truthy_false in Et. now subst.
Qed.

(** X13: when [create] succeeds, the new event is appended to the table
    under the generated id; the request carried a [date] of the digit form
    [YYYY-MM-DD], stored as the Date constructor reads it; and the stored
    [time] is either null, for a request without a time, or the request's
    time string unchanged, which is then [HH:mm] or [H:mm] in range. *)
Theorem calendar_create_outcome (h : JS.Host) (users : list User.t)
    (rows : calendarEventService.table) (newId : string) (e : EventInput)
    (r : CalendarEvent.t) (rows' : calendarEventService.table) :
  calendarEventService.create h users rows newId e = (Ok r, rows') ->
  rows' = (rows ++ [r])%list
  /\ CalendarEvent.id r = newId
  /\ CalendarEvent.userId r = ev_userId e
  /\ (exists s t, ev_date e = Some s /\ Shape.ymd s = true
                  /\ JS.newDate h s = Some t /\ CalendarEvent.date r = Some t)
  /\ match CalendarEvent.time r with
     | Some t => ev_time e = Some t
                 /\ (Shape.strictClock t = true \/ Shape.shortClock t = true)
     | None => ev_time e = None \/ ev_time e = Some ""
     end.
Proof.
  unfold calendarEventService.create.
  destruct (calendarEventService.validated (calendarEventService._validateDate h)
              (ev_date e)) as [date|err] eqn:Ed; [|discriminate].
  destruct (calendarEventService.validated calendarEventService._validateTime
              (ev_time e)) as [time|err] eqn:Et; [|discriminate].
  destruct date as [t|]; [|discriminate].
  destruct (ev_title e) as [ttl|]; [|discriminate].
  destruct (invalidArg _); [discriminate|].
  destruct (userExists users (ev_userId e)); cbv [negb]; [|discriminate].
  unfold Prisma.create. intros H. injection H as <- <-. simpl.
  split; [reflexivity|]. split; [reflexivity|]. split; [reflexivity|]. split.
  - destruct (validated_date_ok h _ _ Ed) as [s [H1 [H2 H3]]].
    exists s, t. tauto.
  - exact (validated_time_ok _ _ Et).
Qed.

Lemma calendar_create_outcome_witness :
  [Fixture.session] = ([] ++ [Fixture.session])%list
  /\ CalendarEvent.id Fixture.session = "e1"
  /\ CalendarEvent.userId Fixture.session = ev_userId Fixture.evening
  /\ (exists s t,
        ev_date Fixture.evening = Some s /\ Shape.ymd s = true
        /\ JS.newDate JS.utcHost s = Some t
        /\ CalendarEvent.date Fixture.session = Some t)
  /\ match CalendarEvent.time Fixture.session with
     | Some t => ev_time Fixture.evening = Some t
                 /\ (Shape.strictClock t = true \/ Shape.shortClock t = true)
     | None => ev_time Fixture.evening = None \/ ev_time Fixture.evening = Some ""
     end.
Proof.
  apply (calendar_create_outcome JS.utcHost Sample.users [] "e1" Fixture.evening
           Fixture.session [Fixture.session]).
  reflexivity.
Defined.

(** X14: an update that names none of [title], [type], [description],
    [completed], [date] and [time] throws and writes nothing, whether or
    not the event exists and whatever recurrence fields it names. *)
Theorem calendar_update_no_fields (h : JS.Host) (rows : calendarEventService.table)
    (eventId : string) (e : EventInput) :
  ev_title e = None -> ev_type e = None -> ev_description e = None ->
  ev_completed e = None -> ev_date e = None -> ev_time e = None ->
  calendarEventService.update h rows eventId e
  = (Err (Thrown "No valid fields to update"), rows).
Proof.
  intros H1 H2 H3 H4 H5 H6. unfold calendarEventService.update.
  rewrite H1, H2, H3, H4, H5, H6. reflexivity.
Qed.

Lemma calendar_update_no_fields_witness :
  calendarEventService.update JS.utcHost [Fixture.legDay] "e1" Fixture.recurOnly
  = (Err (Thrown "No valid fields to update"), [Fixture.legDay]).
Proof.
  apply (calendar_update_no_fields JS.utcHost [Fixture.legDay] "e1" Fixture.recurOnly);
    reflexivity.
Defined.

(** X15: a successful update of a stored event returns and stores, under
    the same id, a row whose id, owner and three recurrence columns are
    those of the stored event; the ids of the table and the rows under
    other ids are unchanged. *)
Theorem calendar_update_frame (h : JS.Host) (rows : calendarEventService.table)
    (eventId : string) (e : EventInput) (r r' : CalendarEvent.t)
    (rows' : calendarEventService.table) :
  calendarEventService.getById rows eventId = Some r ->
  calendarEventService.update h rows eventId e = (Ok r', rows') ->
  calendarEventService.getById rows' eventId = Some r'
  /\ CalendarEvent.id r' = CalendarEvent.id r
  /\ CalendarEvent.userId r' = CalendarEvent.userId r
  /\ CalendarEvent.recurring r' = CalendarEvent.recurring r
  /\ CalendarEvent.recurringDays r' = CalendarEvent.recurringDays r
  /\ CalendarEvent.recurringEndDate r' = CalendarEvent.recurringEndDate r
  /\ map CalendarEvent.id rows' = map CalendarEvent.id rows
  /\ forall j, j <> eventId ->
       calendarEventService.getById rows' j = calendarEventService.getById rows j.
Proof.
  unfold calendarEventService.getById, calendarEventService.update.
  intros Hf.
  destruct (calendarEventService.checked _ (ev_date e)) as [date|]; [|discriminate].
  destruct (calendarEventService.checked _ (ev_time e)) as [time|]; [|discriminate].
  destruct (calendarEventService.noFields _); [discriminate|].
  unfold Prisma.update. rewrite Hf. intros H. injection H as <- <-.
  pose proof (findUnique_key CalendarEvent.id rows eventId r Hf) as Hk.
  split.
  { apply (findUnique_replaceRow CalendarEvent.id rows eventId r); [exact Hf | exact Hk]. }
  simpl. repeat split.
  - now apply map_key_replaceRow.
  - intros j Hj. now apply findUnique_replaceRow_other.
Qed.

Lemma calendar_update_frame_witness :
  exists r' rows',
    calendarEventService.update JS.utcHost [Fixture.legDay] "e1" (Fixture.retitle "Arms")
    = (Ok r', rows')
    /\ CalendarEvent.title r' = "Arms"
    /\ calendarEventService.getById rows' "e1" = Some r'
    /\ CalendarEvent.id r' = CalendarEvent.id Fixture.legDay
    /\ CalendarEvent.userId r' = CalendarEvent.userId Fixture.legDay
    /\ CalendarEvent.recurring r' = CalendarEvent.recurring Fixture.legDay
    /\ CalendarEvent.recurringDays r' = CalendarEvent.recurringDays Fixture.legDay
    /\ CalendarEvent.recurringEndDate r' = CalendarEvent.recurringEndDate Fixture.legDay
    /\ map CalendarEvent.id rows' = map CalendarEvent.id [Fixture.legDay]
    /\ forall j, j <> "e1" ->
         calendarEventService.getById rows' j
         = calendarEventService.getById [Fixture.legDay] j.
Proof.
  eexists. eexists. split; [reflexivity|]. split; [reflexivity|].
  apply (calendar_update_frame JS.utcHost [Fixture.legDay] "e1" (Fixture.retitle "Arms")
           Fixture.legDay); reflexivity.
Defined.

(* ====================================================================== *)
(** ** Messages *)
(* ====================================================================== *)

Section OrderedLists.

Variable T : Type.

Lemma StronglySorted_weaken (R S : T -> T -> Prop) (l : list T) :
  (forall a b, R a b -> S a b) -> StronglySorted R l -> StronglySorted S l.
Proof.
  intros HRS. induction 1 as [|x l Hs IH Hall]; constructor; [exact IH|].
  eapply Forall_impl; [|exact Hall]. intros a. apply HRS.
Qed.

Lemma StronglySorted_split (R : T -> T -> Prop) (l1 l2 : list T) :
  StronglySorted R (l1 ++ l2) ->
  StronglySorted R l1 /\ forall a b, In a l1 -> In b l2 -> R a b.
Proof.
  induction l1 as [|x l1 IH]; simpl; intros H.
  - split; [constructor | intros a b []].
  - inversion H as [|? ? Hs Hall]; subst. destruct (IH Hs) as [H1 H2]. split.
    + constructor; [exact H1|].
      rewrite Forall_forall in *. intros y Hy. apply Hall. apply in_or_app. now left.
    + intros a b [<- | Ha] Hb.
      * rewrite Forall_forall in Hall. apply Hall. apply in_or_app. now right.
      * now apply H2.
Qed.

Lemma orderByDesc_sorted (k : T -> Z) (l : list T) :
  StronglySorted (fun a b => k b <= k a) (Prisma.orderByDesc k l).
Proof.
  unfold Prisma.orderByDesc.
  apply (StronglySorted_weaken (fun a b => - k a <= - k b)); [intros; lia|].
  apply (orderByAsc_sorted (fun r => - k r)).
Qed.

Lemma orderByDesc_In (k : T -> Z) (l : list T) (x : T) :
  In x (Prisma.orderByDesc k l) <-> In x l.
Proof.
  unfold Prisma.orderByDesc. split.
  - apply Permutation_in. symmetry. apply orderByAsc_perm.
  - apply Permutation_in. apply orderByAsc_perm.
Qed.

Lemma orderByAsc_In (k : T -> Z) (l : list T) (x : T) :
  In x (Prisma.orderByAsc k l) <-> In x l.
Proof.
  split.
  - apply Permutation_in. symmetry. apply orderByAsc_perm.
  - apply Permutation_in. apply orderByAsc_perm.
Qed.

Lemma take_firstn (n : Z) (l : list T) :
  0 <= n -> Prisma.take n l = firstn (Z.to_nat n) l.
Proof.
  intros H. unfold Prisma.take. apply Z.leb_le in H. now rewrite H.
Qed.

(** What [take] keeps of a list sorted by [R], for a limit that is not
    negative: at most [n] rows, themselves sorted, each of them before (in
    the sense of [R]) every row left out. *)
Lemma take_sorted (R : T -> T -> Prop) (n : Z) (l : list T) :
  0 <= n -> StronglySorted R l ->
  Z.of_nat (List.length (Prisma.take n l)) <= n
  /\ StronglySorted R (Prisma.take n l)
  /\ (forall a, In a (Prisma.take n l) -> In a l)
  /\ (forall a b, In a (Prisma.take n l) -> In b l -> ~ In b (Prisma.take n l) -> R a b).
Proof.
  intros Hn Hs. rewrite (take_firstn n l Hn).
  pose proof (firstn_skipn (Z.to_nat n) l) as Hsplit.
  rewrite <- Hsplit in Hs. destruct (StronglySorted_split R _ _ Hs) as [H1 H2].
  split.
  - pose proof (firstn_le_length (Z.to_nat n) l). lia.
  - split; [exact H1|]. split.
    + intros a Ha. rewrite <- Hsplit. apply in_or_app. now left.
    + intros a b Ha Hb Hnb. apply H2; [exact Ha|].
      rewrite <- Hsplit in Hb. apply in_app_or in Hb. tauto.
Qed.

End OrderedLists.

Arguments orderByDesc_sorted {T} k l.
Arguments orderByDesc_In {T} k l x.
Arguments orderByAsc_In {T} k l x.
Arguments take_sorted {T} R n l _ _.

(** X16: for a limit from 0 to 2147483647, [getByUser] returns at most
    [limit] messages, all of them stored messages of the user, in ascending
    order of [createdAt]. *)
Theorem messages_getByUser_bounded (rows : messageService.table) (u : string)
    (limit : Z) :
  0 <= limit <= 2147483647 ->
  Z.of_nat (List.length (messageService.getByUser rows u limit)) <= limit
  /\ StronglySorted (fun a b => Message.createdAt a <= Message.createdAt b)
       (messageService.getByUser rows u limit)
  /\ forall m, In m (messageService.getByUser rows u limit) ->
               In m rows /\ Message.userId m = u.
Proof.
  intros [Hl _]. unfold messageService.getByUser.
  destruct (take_sorted (fun a b => Message.createdAt a <= Message.createdAt b) limit _ Hl
              (orderByAsc_sorted Message.createdAt
                 (filter (fun m => String.eqb (Message.userId m) u) rows)))
    as [H1 [H2 [H3 _]]].
  split; [exact H1|]. split; [exact H2|].
  intros m Hm. apply H3 in Hm. apply orderByAsc_In in Hm.
  apply filter_In in Hm as [Hin He]. apply String.eqb_eq in He. now split.
Qed.

Lemma messages_getByUser_bounded_witness :
  Z.of_nat (List.length (messageService.getByUser Fixture.messages "u1" 2)) <= 2
  /\ StronglySorted (fun a b => Message.createdAt a <= Message.createdAt b)
       (messageService.getByUser Fixture.messages "u1" 2)
  /\ forall m, In m (messageService.getByUser Fixture.messages "u1" 2) ->
               In m Fixture.messages /\ Message.userId m = "u1".
Proof.
  apply (messages_getByUser_bounded Fixture.messages "u1" 2). lia.
Defined.

(** X17: for a limit from 0 to 2147483647, [getConversation] returns at
    most [limit] messages of the user, newest first, and they are the most
    recent ones: no message of the user that is left out was created after
    one that is returned. *)
Theorem getConversation_most_recent (rows : messageService.table) (u : string)
    (limit : Z) :
  0 <= limit <= 2147483647 ->
  Z.of_nat (List.length (messageService.getConversation rows u limit)) <= limit
  /\ StronglySorted (fun a b => Message.createdAt b <= Message.createdAt a)
       (messageService.getConversation rows u limit)
  /\ (forall m, In m (messageService.getConversation rows u limit) ->
                In m rows /\ Message.userId m = u)
  /\ forall m m',
       In m (messageService.getConversation rows u limit) ->
       In m' rows -> Message.userId m' = u ->
       ~ In m' (messageService.getConversation rows u limit) ->
       Message.createdAt m' <= Message.createdAt m.
Proof.
  intros [Hl _]. unfold messageService.getConversation.
  destruct (take_sorted (fun a b => Message.createdAt b <= Message.createdAt a) limit _ Hl
              (orderByDesc_sorted Message.createdAt
                 (filter (fun m => String.eqb (Message.userId m) u) rows)))
    as [H1 [H2 [H3 H4]]].
  split; [exact H1|]. split; [exact H2|]. split.
  - intros m Hm. apply H3 in Hm. apply orderByDesc_In in Hm.
    apply filter_In in Hm as [Hin He]. apply String.eqb_eq in He. now split.
  - intros m m' Hm Hin Hu Hout. apply (H4 m m' Hm); [|exact Hout].
    apply orderByDesc_In. apply filter_In. split; [exact Hin|].
    now apply String.eqb_eq.
Qed.

Lemma getConversation_most_recent_witness :
  Z.of_nat (List.length (messageService.getConversation Fixture.messages "u1" 2)) <= 2
  /\ StronglySorted (fun a b => Message.createdAt b <= Message.createdAt a)
       (messageService.getConversation Fixture.messages "u1" 2)
  /\ (forall m, In m (messageService.getConversation Fixture.messages "u1" 2) ->
                In m Fixture.messages /\ Message.userId m = "u1")
  /\ forall m m',
       In m (messageService.getConversation Fixture.messages "u1" 2) ->
       In m' Fixture.messages -> Message.userId m' = "u1" ->
       ~ In m' (messageService.getConversation Fixture.messages "u1" 2) ->
       Message.createdAt m' <= Message.createdAt m.
Proof.
  apply (getConversation_most_recent Fixture.messages "u1" 2). lia.
Defined.

Example getConversation_example :
  map Message.id (messageService.getConversation Fixture.messages "u1" 2) = ["m4"; "m3"]
  /\ map Message.id (messageService.getByUser Fixture.messages "u1" 2) = ["m1"; "m3"].
Proof. split; reflexivity. Qed.

(** X18: POST /messages with [text] or [userId] missing or empty is
    answered 400 and writes nothing. *)
Theorem message_post_requires (users : list User.t) (rows : messageService.table)
    (newId : string) (createdAt : Z) (body : MessageInput) :
  present (msg_text body) = false \/ present (msg_userId body) = false ->
  messageRouter.post users rows newId createdAt body
  = (replyError 400 (Some false) "Text and userId are required", rows).
Proof.
  unfold messageRouter.post. intros [H | H]; rewrite H; simpl; [reflexivity|].
  now rewrite orb_true_r.
Qed.

Lemma message_post_requires_witness :
  messageRouter.post Sample.users Fixture.messages "m9" 50 (Fixture.said "" None)
  = (replyError 400 (Some false) "Text and userId are required", Fixture.messages).
Proof.
  apply (message_post_requires Sample.users Fixture.messages "m9" 50
           (Fixture.said "" None)).
  left. reflexivity.
Defined.

(** X19: POST /messages with a non-empty [text] and the id of a stored
    user answers 201 and appends one message with that text and user; its
    role is [user] whatever role the body names. *)
Theorem message_post_creates (users : list User.t) (rows : messageService.table)
    (newId : string) (createdAt : Z) (body : MessageInput) (u : string)
    (usr : User.t) :
  present (msg_text body) = true ->
  msg_userId body = Some u -> u <> "" ->
  Prisma.findUnique User.id users u = Some usr ->
  exists m,
    messageRouter.post users rows newId createdAt body
    = (replyData 201 m, (rows ++ [m])%list)
    /\ Message.role m = "user"
    /\ msg_text body = Some (Message.text m)
    /\ Message.userId m = u
    /\ Message.id m = newId /\ Message.createdAt m = createdAt.
Proof.
  unfold messageRouter.post, messageService.create, userExists.
  intros H1 Hu Hne Hf. apply truthy_true in Hne.
  rewrite H1, Hu. simpl. rewrite Hne, Hf. simpl.
  destruct (msg_text body) as [t|]; [|discriminate].
  eexists. split; [reflexivity|]. simpl. repeat split.
Qed.

Lemma message_post_creates_witness :
  exists m,
    messageRouter.post Sample.users [] "m9" 50 (Fixture.said "On it" (Some "assistant"))
    = (replyData 201 m, ([] ++ [m])%list)
    /\ Message.role m = "user"
    /\ msg_text (Fixture.said "On it" (Some "assistant")) = Some (Message.text m)
    /\ Message.userId m = "u1"
    /\ Message.id m = "m9" /\ Message.createdAt m = 50.
Proof.
  apply (message_post_creates Sample.users [] "m9" 50
           (Fixture.said "On it" (Some "assistant")) "u1" Fixture.ann).
  - reflexivity.
  - reflexivity.
  - discriminate.
  - reflexivity.
Defined.

Example message_post_role :
  map Message.role
    (snd (messageRouter.post Sample.users [] "m9" 50
            (Fixture.said "On it" (Some "assistant"))))
  = ["user"].
Proof. reflexivity. Qed.

(* ====================================================================== *)
(** ** The AI memory *)
(* ====================================================================== *)

Lemma includes_app_r (needle a b : string) :
  includes needle b = true -> includes needle (a ++ b) = true.
Proof.
  intros H. induction a as [|c a IH]; simpl; [exact H|].
  rewrite IH. apply orb_true_r.
Qed.

Lemma caught_userNotFound (u : string) (flag : option bool) (msg : string) :
  match aiMemoryService.userNotFound u with
  | Thrown text => includes "User with ID" text && includes "not found" text
  | _ => false
  end = true.
Proof.
  unfold aiMemoryService.userNotFound. apply andb_true_intro. split.
  - reflexivity.
  - apply (includes_app_r "not found" "User with ID ").
    apply (includes_app_r "not found" u). reflexivity.
Qed.

Section Upsert.

Variable T : Type.
Variable key : T -> string.

Lemma upsert_lookup (rows : list T) (i : string) (fresh : T) (data : T -> T) :
  key fresh = i -> (forall r, key (data r) = key r) ->
  exists r',
    Prisma.upsert key rows i fresh data = (Ok r', snd (Prisma.upsert key rows i fresh data))
    /\ Prisma.findUnique key (snd (Prisma.upsert key rows i fresh data)) i = Some r'
    /\ r' = match Prisma.findUnique key rows i with
            | Some r => data r
            | None => fresh
            end.
Proof.
  intros Hk Hd. unfold Prisma.upsert.
  destruct (Prisma.findUnique key rows i) as [r|] eqn:E; simpl.
  - exists (data r). split; [reflexivity|]. split; [|reflexivity].
    apply (findUnique_replaceRow key rows i r); [exact E|].
    rewrite Hd. now apply (findUnique_key key rows).
  - exists fresh. split; [reflexivity|]. split; [|reflexivity].
    rewrite findUnique_app, E, Hk, String.eqb_refl. reflexivity.
Qed.

Lemma upsert_keys (rows : list T) (i : string) (fresh : T) (data : T -> T) :
  key fresh = i -> (forall r, key (data r) = key r) ->
  NoDup (map key rows) ->
  NoDup (map key (snd (Prisma.upsert key rows i fresh data)))
  /\ forall j, j <> i ->
       Prisma.findUnique key (snd (Prisma.upsert key rows i fresh data)) j
       = Prisma.findUnique key rows j.
Proof.
  intros Hk Hd Hnd. unfold Prisma.upsert.
  destruct (Prisma.findUnique key rows i) as [r|] eqn:E; simpl.
  - assert (Hkr : key (data r) = i).
    { rewrite Hd. now apply (findUnique_key key rows). }
    split.
    + now rewrite map_key_replaceRow.
    + intros j Hj. now apply findUnique_replaceRow_other.
  - split.
    + rewrite map_app. simpl. apply NoDup_app.
      * exact Hnd.
      * repeat constructor. intros [].
      * intros x Hx [<- | []]. rewrite Hk in Hx.
        apply (findUnique_None key rows i) in E. contradiction.
    + intros j Hj. rewrite findUnique_app.
      destruct (Prisma.findUnique key rows j); [reflexivity|].
      assert (F : String.eqb (key fresh) j = false) by (apply String.eqb_neq; congruence).
      now rewrite F.
Qed.

End Upsert.

Arguments upsert_lookup {T} key rows i fresh data _ _.
Arguments upsert_keys {T} key rows i fresh data _ _ _.

Lemma caught_missing_user (u : string) (flag : option bool) (msg : string) :
  aiMemoryRouter.caught (aiMemoryService.userNotFound u) flag msg
  = replyError 404 flag "User not found".
Proof.
  pose proof (caught_userNotFound u flag msg) as H.
  unfold aiMemoryRouter.caught, aiMemoryService.userNotFound in *. now rewrite H.
Qed.

(** X20: for a user id that is not in the user table, POST /:userId
    answers 404 and writes nothing, and so do the two PATCH routes for a
    body that is not empty. *)
Theorem memory_unknown_user (users : list User.t) (rows : aiMemoryService.table)
    (now : Z) (u : string) (summary : option string) (goals preferences : option Json)
    (body : Json) :
  Prisma.findUnique User.id users u = None ->
  aiMemoryRouter.emptyBody body = false ->
  aiMemoryRouter.post users rows now u summary goals preferences
  = (replyError 404 (Some false) "User not found", rows)
  /\ aiMemoryRouter.patch_goals users rows now u body
     = (replyError 404 None "User not found", rows)
  /\ aiMemoryRouter.patch_preferences users rows now u body
     = (replyError 404 None "User not found", rows).
Proof.
  intros Hu Hb.
  unfold aiMemoryRouter.post, aiMemoryRouter.patch_goals, aiMemoryRouter.patch_preferences,
    aiMemoryService.upsert, aiMemoryService.updateGoals, aiMemoryService.updatePreferences.
  rewrite Hu, Hb, !caught_missing_user. repeat split.
Qed.

Lemma memory_unknown_user_witness :
  aiMemoryRouter.post [Fixture.ann] [Fixture.memory] 99 "u7" (Some "Swimmer") None None
  = (replyError 404 (Some false) "User not found", [Fixture.memory])
  /\ aiMemoryRouter.patch_goals [Fixture.ann] [Fixture.memory] 99 "u7" (JArr [JStr "10k"])
     = (replyError 404 None "User not found", [Fixture.memory])
  /\ aiMemoryRouter.patch_preferences [Fixture.ann] [Fixture.memory] 99 "u7"
       (JArr [JStr "10k"])
     = (replyError 404 None "User not found", [Fixture.memory]).
Proof.
  apply (memory_unknown_user [Fixture.ann] [Fixture.memory] 99 "u7" (Some "Swimmer")
           None None (JArr [JStr "10k"])); reflexivity.
Defined.

(** X21: for a known user and a memory table with one row per user at
    most, POST /:userId answers 200 with the stored memory; GET /:userId
    then answers 200 with that same memory; the memory carries every one
    of [summary], [goals], [preferences] that the body gave; the table
    still has one row per user at most, and the memories of other users
    are untouched. *)
Theorem memory_post_then_get (users : list User.t) (rows : aiMemoryService.table)
    (now : Z) (u : string) (usr : User.t) (summary : option string)
    (goals preferences : option Json) :
  Prisma.findUnique User.id users u = Some usr ->
  NoDup (map AIMemory.userId rows) ->
  exists m rows',
    aiMemoryRouter.post users rows now u summary goals preferences
    = (replyData 200 m, rows')
    /\ aiMemoryRouter.get rows' u = replyData 200 m
    /\ AIMemory.userId m = u
    /\ (forall s, summary = Some s -> AIMemory.summary m = Some s)
    /\ (forall g, goals = Some g -> AIMemory.goals m = Some g)
    /\ (forall p, preferences = Some p -> AIMemory.preferences m = Some p)
    /\ NoDup (map AIMemory.userId rows')
    /\ forall j, j <> u ->
         aiMemoryService.getByUser rows' j = aiMemoryService.getByUser rows j.
Proof.
  intros Hu Hnd.
  unfold aiMemoryRouter.post, aiMemoryService.upsert. rewrite Hu.
  match goal with
  | |- context [Prisma.upsert AIMemory.userId rows u ?f ?d] =>
      destruct (upsert_lookup AIMemory.userId rows u f d eq_refl (fun r => eq_refl))
        as [m [Heq [Hfind Hm]]];
      destruct (upsert_keys AIMemory.userId rows u f d eq_refl (fun r => eq_refl) Hnd)
        as [Hnd' Hother];
      rewrite Heq;
      exists m, (snd (Prisma.upsert AIMemory.userId rows u f d))
  end.
  split; [reflexivity|]. split.
  { unfold aiMemoryRouter.get, aiMemoryService.getByUser. now rewrite Hfind. }
  split.
  { apply (findUnique_key AIMemory.userId _ _ _ Hfind). }
  split; [|split; [|split; [|split; [exact Hnd' | exact Hother]]]].
  - intros s ->. rewrite Hm.
    destruct (Prisma.findUnique AIMemory.userId rows u); reflexivity.
  - intros g ->. rewrite Hm.
    destruct (Prisma.findUnique AIMemory.userId rows u); reflexivity.
  - intros p ->. rewrite Hm.
    destruct (Prisma.findUnique AIMemory.userId rows u); reflexivity.
Qed.

Lemma memory_post_then_get_witness :
  exists m rows',
    aiMemoryRouter.post [Fixture.ann] [] 99 "u1" (Some "Swimmer") None None
    = (replyData 200 m, rows')
    /\ aiMemoryRouter.get rows' "u1" = replyData 200 m
    /\ AIMemory.userId m = "u1"
    /\ (forall s, Some "Swimmer" = Some s -> AIMemory.summary m = Some s)
    /\ (forall g, @None Json = Some g -> AIMemory.goals m = Some g)
    /\ (forall p, @None Json = Some p -> AIMemory.preferences m = Some p)
    /\ NoDup (map AIMemory.userId rows')
    /\ forall j, j <> "u1" ->
         aiMemoryService.getByUser rows' j = aiMemoryService.getByUser [] j.
Proof.
  apply (memory_post_then_get [Fixture.ann] [] 99 "u1" Fixture.ann (Some "Swimmer")
           None None).
  - reflexivity.
  - constructor.
Defined.

(** X22: POST /:userId on a user who already has a memory keeps each of
    [summary], [goals], [preferences] that the body leaves out, stamps
    [lastSync] with the clock, and sets the three extraction columns to
    null. *)
Theorem memory_post_resets_extraction (users : list User.t)
    (rows : aiMemoryService.table) (now : Z) (u : string) (usr : User.t)
    (m0 : AIMemory.t) (summary : option string) (goals preferences : option Json) :
  Prisma.findUnique User.id users u = Some usr ->
  aiMemoryService.getByUser rows u = Some m0 ->
  exists m rows',
    aiMemoryRouter.post users rows now u summary goals preferences
    = (replyData 200 m, rows')
    /\ AIMemory.extractionConfidence m = None
    /\ AIMemory.extractionWarnings m = None
    /\ AIMemory.extractedAt m = None
    /\ AIMemory.lastSync m = Some now
    /\ (summary = None -> AIMemory.summary m = AIMemory.summary m0)
    /\ (goals = None -> AIMemory.goals m = AIMemory.goals m0)
    /\ (preferences = None -> AIMemory.preferences m = AIMemory.preferences m0).
Proof.
  intros Hu Hm. unfold aiMemoryService.getByUser in Hm.
  unfold aiMemoryRouter.post, aiMemoryService.upsert, Prisma.upsert.
  rewrite Hu, Hm. eexists. eexists. split; [reflexivity|]. simpl.
  repeat split; intros ->; reflexivity.
Qed.

Lemma memory_post_resets_extraction_witness :
  exists m rows',
    aiMemoryRouter.post [Fixture.ann] [Fixture.memory] 99 "u1" (Some "Swimmer") None None
    = (replyData 200 m, rows')
    /\ AIMemory.extractionConfidence m = None
    /\ AIMemory.extractionWarnings m = None
    /\ AIMemory.extractedAt m = None
    /\ AIMemory.lastSync m = Some 99
    /\ (Some "Swimmer" = None -> AIMemory.summary m = AIMemory.summary Fixture.memory)
    /\ (@None Json = None -> AIMemory.goals m = AIMemory.goals Fixture.memory)
    /\ (@None Json = None -> AIMemory.preferences m = AIMemory.preferences Fixture.memory).
Proof.
  apply (memory_post_resets_extraction [Fixture.ann] [Fixture.memory] 99 "u1" Fixture.ann
           Fixture.memory (Some "Swimmer") None None); reflexivity.
Defined.

(** X23: PATCH /:userId/goals with a body that is not empty, for a known
    user who has a memory, stores the body as the goals and stamps
    [lastSync]; the summary, the preferences and the extraction columns
    keep their values, and GET then returns the updated memory. *)
Theorem patch_goals_keeps_rest (users : list User.t) (rows : aiMemoryService.table)
    (now : Z) (u : string) (usr : User.t) (m0 : AIMemory.t) (body : Json) :
  Prisma.findUnique User.id users u = Some usr ->
  aiMemoryService.getByUser rows u = Some m0 ->
  aiMemoryRouter.emptyBody body = false ->
  exists m rows',
    aiMemoryRouter.patch_goals users rows now u body = (replyData 200 m, rows')
    /\ aiMemoryRouter.get rows' u = replyData 200 m
    /\ AIMemory.goals m = Some body
    /\ AIMemory.lastSync m = Some now
    /\ AIMemory.summary m = AIMemory.summary m0
    /\ AIMemory.preferences m = AIMemory.preferences m0
    /\ AIMemory.extractionConfidence m = AIMemory.extractionConfidence m0
    /\ AIMemory.extractionWarnings m = AIMemory.extractionWarnings m0
    /\ AIMemory.extractedAt m = AIMemory.extractedAt m0.
Proof.
  intros Hu Hm Hb. unfold aiMemoryService.getByUser in Hm.
  unfold aiMemoryRouter.patch_goals, aiMemoryService.updateGoals, Prisma.upsert.
  rewrite Hb, Hu, Hm. eexists. eexists. split; [reflexivity|]. split.
  - unfold aiMemoryRouter.get, aiMemoryService.getByUser.
    erewrite (findUnique_replaceRow AIMemory.userId rows u m0); [reflexivity | exact Hm |].
    simpl. now apply (findUnique_key AIMemory.userId rows).
  - simpl. repeat split.
Qed.

Lemma patch_goals_keeps_rest_witness :
  exists m rows',
    aiMemoryRouter.patch_goals [Fixture.ann] [Fixture.memory] 99 "u1" (JArr [JStr "10k"])
    = (replyData 200 m, rows')
    /\ aiMemoryRouter.get rows' "u1" = replyData 200 m
    /\ AIMemory.goals m = Some (JArr [JStr "10k"])
    /\ AIMemory.lastSync m = Some 99
    /\ AIMemory.summary m = AIMemory.summary Fixture.memory
    /\ AIMemory.preferences m = AIMemory.preferences Fixture.memory
    /\ AIMemory.extractionConfidence m = AIMemory.extractionConfidence Fixture.memory
    /\ AIMemory.extractionWarnings m = AIMemory.extractionWarnings Fixture.memory
    /\ AIMemory.extractedAt m = AIMemory.extractedAt Fixture.memory.
Proof.
  apply (patch_goals_keeps_rest [Fixture.ann] [Fixture.memory] 99 "u1" Fixture.ann
           Fixture.memory (JArr [JStr "10k"])); reflexivity.
Defined.

(* ====================================================================== *)
(** ** Users *)
(* ====================================================================== *)

(** X24: what [userService.getById] includes with a user agrees with the
    other services: its reminders are those of
    [reminderService.getByUser] for that user, in ascending order of
    [dueDate], and its memory is the one of [aiMemoryService.getByUser]. *)
Theorem getById_includes (users : list User.t) (memories : aiMemoryService.table)
    (messages : messageService.table) (reminders : reminderService.table)
    (u : string) (v : UserView) :
  userService.getById users memories messages reminders u = Some v ->
  User.id (v_user v) = u
  /\ Permutation (v_reminders v) (reminderService.getByUser reminders u false)
  /\ StronglySorted (fun a b => Reminder.dueDate a <= Reminder.dueDate b) (v_reminders v)
  /\ v_aiMemory v = aiMemoryService.getByUser memories u.
Proof.
  unfold userService.getById.
  destruct (Prisma.findUnique User.id users u) as [usr|] eqn:E; [|discriminate].
  intros H. injection H as <-. simpl.
  pose proof (findUnique_key User.id users u usr E) as Hk. rewrite Hk.
  split; [reflexivity|]. split; [|split; [|reflexivity]].
  - unfold reminderService.getByUser, Prisma.findMany. now rewrite filter_filter.
  - apply orderByAsc_sorted.
Qed.

Lemma getById_includes_witness :
  exists v,
    userService.getById [Fixture.ann] [Fixture.memory] Fixture.messages Fixture.reminders
      "u1" = Some v
    /\ User.id (v_user v) = "u1"
    /\ Permutation (v_reminders v)
         (reminderService.getByUser Fixture.reminders "u1" false)
    /\ StronglySorted (fun a b => Reminder.dueDate a <= Reminder.dueDate b)
         (v_reminders v)
    /\ v_aiMemory v = aiMemoryService.getByUser [Fixture.memory] "u1".
Proof.
  eexists. split; [reflexivity|].
  apply (getById_includes [Fixture.ann] [Fixture.memory] Fixture.messages
           Fixture.reminders "u1").
  reflexivity.
Defined.

(** X25: PUT /users/:id for an id that is not in the user table answers
    404 and writes nothing; GET /users/:id answers 404 as well. *)
Theorem user_put_missing (users : list User.t) (memories : aiMemoryService.table)
    (messages : messageService.table) (reminders : reminderService.table)
    (i : string) (name : option string) :
  Prisma.findUnique User.id users i = None ->
  userRouter.put users memories messages reminders i name
  = (replyError 404 (Some false) "User not found", users)
  /\ userRouter.get users memories messages reminders i
     = replyError 404 (Some false) "User not found".
Proof.
  intros H. unfold userRouter.put, userRouter.get, userService.getById.
  rewrite H. split; reflexivity.
Qed.

Lemma user_put_missing_witness :
  userRouter.put [Fixture.ann] [] [] [] "u7" (Some "Bo")
  = (replyError 404 (Some false) "User not found", [Fixture.ann])
  /\ userRouter.get [Fixture.ann] [] [] [] "u7"
     = replyError 404 (Some false) "User not found".
Proof.
  apply (user_put_missing [Fixture.ann] [] [] [] "u7" (Some "Bo")). reflexivity.
Defined.

(** X26: PUT /users/:id for a stored user answers 200 with the stored
    row: its name is the body's name when the body has one and the old
    name otherwise; its id, email and password hash are unchanged, and so
    is every other user. *)
Theorem user_put_renames (users : list User.t) (memories : aiMemoryService.table)
    (messages : messageService.table) (reminders : reminderService.table)
    (i : string) (name : option string) (u : User.t) :
  Prisma.findUnique User.id users i = Some u ->
  exists u' users',
    userRouter.put users memories messages reminders i name = (replyData 200 u', users')
    /\ Prisma.findUnique User.id users' i = Some u'
    /\ User.name u' = match name with Some n => Some n | None => User.name u end
    /\ User.id u' = User.id u
    /\ User.email u' = User.email u
    /\ User.passwordHash u' = User.passwordHash u
    /\ forall j, j <> i ->
         Prisma.findUnique User.id users' j = Prisma.findUnique User.id users j.
Proof.
  intros H. pose proof (findUnique_key User.id users i u H) as Hk.
  unfold userRouter.put, userService.getById, userService.update, Prisma.update.
  rewrite H. eexists. eexists. split; [reflexivity|]. split.
  - apply (findUnique_replaceRow User.id users i u); [exact H | exact Hk].
  - simpl. repeat split.
    intros j Hj. now apply findUnique_replaceRow_other.
Qed.

Lemma user_put_renames_witness :
  exists u' users',
    userRouter.put [Fixture.ann] [] [] [] "u1" (Some "Anna") = (replyData 200 u', users')
    /\ Prisma.findUnique User.id users' "u1" = Some u'
    /\ User.name u' = Some "Anna"
    /\ User.id u' = User.id Fixture.ann
    /\ User.email u' = User.email Fixture.ann
    /\ User.passwordHash u' = User.passwordHash Fixture.ann
    /\ forall j, j <> "u1" ->
         Prisma.findUnique User.id users' j = Prisma.findUnique User.id [Fixture.ann] j.
Proof.
  apply (user_put_renames [Fixture.ann] [] [] [] "u1" (Some "Anna") Fixture.ann).
  reflexivity.
Defined.

(* ====================================================================== *)
(** ** Rows for a user that does not exist *)
(* ====================================================================== *)

(** X27: POST /reminders for a non-empty [userId] that names no stored
    user, with a title and a due date present, is answered 500 and writes
    nothing. *)
Theorem post_unknown_user (h : JS.Host) (users : list User.t)
    (rows : reminderService.table) (newId : string) (u : string)
    (body : ReminderInput) :
  u <> "" -> present (in_title body) = true -> present (in_dueDate body) = true ->
  Prisma.findUnique User.id users u = None ->
  router.post h users rows newId (Some u) body
  = (failure 500 None "Failed to create reminder", rows).
Proof.
  intros Hu Ht Hd Hf. apply truthy_true in Hu.
  unfold router.post, reminderService.create, userExists. simpl.
  rewrite Hu, Ht, Hd, Hf. simpl.
  destruct (in_title body) as [ttl|]; [|reflexivity].
  destruct (in_dueDate body) as [s|]; [|reflexivity].
  destruct (JS.newDate h s); [|reflexivity].
  destruct (invalidArg _); reflexivity.
Qed.

Lemma post_unknown_user_witness :
  router.post JS.utcHost Sample.users [Sample.checkup] "r7" (Some "ghost") Sample.stamped
  = (failure 500 None "Failed to create reminder", [Sample.checkup]).
Proof.
  apply (post_unknown_user JS.utcHost Sample.users [Sample.checkup] "r7" "ghost"
           Sample.stamped).
  - discriminate.
  - reflexivity.
  - reflexivity.
  - reflexivity.
Defined.

(** X28: POST /messages with a non-empty [text] and a non-empty [userId]
    that names no stored user is answered 500 and writes nothing. *)
Theorem message_post_unknown_user (users : list User.t) (rows : messageService.table)
    (newId : string) (createdAt : Z) (body : MessageInput) (u : string) :
  present (msg_text body) = true ->
  msg_userId body = Some u -> u <> "" ->
  Prisma.findUnique User.id users u = None ->
  messageRouter.post users rows newId createdAt body
  = (replyError 500 (Some false) "Failed to create message", rows).
Proof.
  unfold messageRouter.post, messageService.create, userExists.
  intros H1 Hu Hne Hf. apply truthy_true in Hne.
  rewrite H1, Hu. simpl. rewrite Hne, Hf. simpl.
  destruct (msg_text body) as [t|]; reflexivity.
Qed.

Lemma message_post_unknown_user_witness :
  messageRouter.post Sample.users Fixture.messages "m9" 50
    {| msg_text := Some "Hi"; msg_userId := Some "ghost"; msg_role := None |}
  = (replyError 500 (Some false) "Failed to create message", Fixture.messages).
Proof.
  apply (message_post_unknown_user Sample.users Fixture.messages "m9" 50
           {| msg_text := Some "Hi"; msg_userId := Some "ghost"; msg_role := None |}
           "ghost").
  - reflexivity.
  - reflexivity.
  - discriminate.
  - reflexivity.
Defined.
